(** * The render-asset dependency binder of [src/framework/handlers/render.js]

    A shallow embedding of the three event callbacks and of
    [RenderHandler.patch], over an explicit model of the objects they mutate
    (render assets, [Render] resources, the asset registry with its event
    bus), followed by the properties of the binding protocol. *)

From Stdlib Require Import ZArith Lia.
From stdpp Require Import base gmap strings list.

Local Open Scope list_scope.

(** ** Data model *)

(** Identity of a mesh-list object (a JS array).  Two fields that hold the
    same [loc] alias the same array. *)
Definition loc := nat.

(** The resource of an entry of [container.resource.renders], itself a
    Render: its [meshes] is a list object, or unset ([None]: [null], as in
    a Render just made or destroyed). *)
Record RenderResource := mkRenderResource { rr_meshes : option loc }.

(** An entry of [container.resource.renders]: [render.resource] may be
    missing. *)
Record RenderHandle := mkRenderHandle { h_resource : option RenderResource }.

(** [containerAsset.resource]: [renders] may be missing (it is tested with
    [&&]), and an element of the array may be [undefined] or [null]. *)
Record ContainerResource := mkContainerResource {
  cr_renders : option (list (option RenderHandle)) }.

Record ContainerAsset := mkContainerAsset {
  ca_id : string;
  ca_resource : option ContainerResource }.

(** [renderAsset.data]. *)
Record RenderData := mkRenderData {
  containerAsset : option string;
  renderIndex : Z }.

(** A render asset; [ra_resource] is a reference to a [Render] object. *)
Record RenderAsset := mkRenderAsset {
  data : RenderData;
  ra_resource : option nat }.

(** The [Render] object a render asset wraps. [None] is the unset state. *)
Record Render := mkRender { meshes : option loc }.

(** The three callbacks the binder registers on the bus. *)
Inductive Callback := CbLoaded | CbAdded | CbRemoved.

(** One subscription of the event bus: [registry.on(name, cb, scope)] or
    [registry.once(name, cb, scope)]. [s_id] is the identity of the handle. *)
Record Sub := mkSub {
  s_id : nat;
  s_name : string;
  s_cb : Callback;
  s_scope : nat;
  s_once : bool }.

(** Trace of the observable actions. *)
Inductive Event :=
| EvCall (cb : Callback) (scope : nat) (cid : string)
    (* the bus invoked [cb] with [this = scope] and an asset of id [cid] *)
| EvLoad (cid : string)
    (* [registry.load(containerAsset)] *)
| EvAssign (e r : nat) (l : option loc)
    (* [renderAsset.resource.meshes = l], by render asset [e] on Render [r];
       [l] is the value copied, a list object or [None] for an unset one *)
| EvDestroy (e r : nat).
    (* [renderAsset.resource.destroy()] *)

(** The whole state: the registry (its asset table and its subscriptions),
    the render assets and the [Render] objects, both addressed by reference
    (every reference denotes an object), and the trace. *)
Record World := mkWorld {
  assets : gmap string ContainerAsset;
  subs : list Sub;
  next_sid : nat;
  entities : nat -> RenderAsset;
  renders : nat -> Render;
  log : list Event }.

Definition set_subs (f : list Sub -> list Sub) (w : World) : World :=
  mkWorld (assets w) (f (subs w)) (next_sid w) (entities w) (renders w) (log w).

Definition set_render (r : nat) (v : Render) (w : World) : World :=
  mkWorld (assets w) (subs w) (next_sid w) (entities w)
    (fun r' => if Nat.eqb r' r then v else renders w r') (log w).

Definition add_log (ev : Event) (w : World) : World :=
  mkWorld (assets w) (subs w) (next_sid w) (entities w) (renders w)
    (log w ++ [ev]).

Definition set_asset (id : string) (c : option ContainerAsset) (w : World) : World :=
  mkWorld (match c with Some a => <[id:=a]> (assets w) | None => delete id (assets w) end)
    (subs w) (next_sid w) (entities w) (renders w) (log w).

(** ** Control: a call either returns or throws; the effects made before a
    throw stay. *)
Inductive Outcome := Done (w : World) | Throw (w : World).

Definition M := World -> Outcome.

Definition final (o : Outcome) : World :=
  match o with Done w => w | Throw w => w end.

Definition returns (o : Outcome) : bool :=
  match o with Done _ => true | Throw _ => false end.

Definition skip : M := Done.

Definition seq (m1 m2 : M) : M :=
  fun w => match m1 w with Done w' => m2 w' | Throw w' => Throw w' end.

Notation "m1 ;;; m2" := (seq m1 m2) (at level 100, m2 at level 200, right associativity).

Definition modify (f : World -> World) : M := fun w => Done (f w).

(** ** JS values *)

(** [a[i]] on an array: [undefined] outside [0 .. length-1]. *)
Definition js_index {A} (a : list (option A)) (i : Z) : option A :=
  if (i <? 0)%Z then None else mjoin (a !! Z.to_nat i).

(** Truthiness of an optional identifier: [undefined] and the empty string
    are falsy. *)
Definition truthy_id (o : option string) : option string :=
  match o with
  | Some s => if String.eqb s "" then None else Some s
  | None => None
  end.

(** ** The registry's event bus *)

Definition Callback_eqb (a b : Callback) : bool :=
  match a, b with
  | CbLoaded, CbLoaded | CbAdded, CbAdded | CbRemoved, CbRemoved => true
  | _, _ => false
  end.

(** Does subscription [s] belong to the key [(name, cb, scope)]? *)
Definition sub_is (name : string) (cb : Callback) (scope : nat) (s : Sub) : bool :=
  String.eqb (s_name s) name && Callback_eqb (s_cb s) cb && Nat.eqb (s_scope s) scope.

(** Modelled from the spec: the subscription part of the event bus, class
    EventHandler, which is not among the sources.  A subscription is added
    after the existing ones, with a handle of its own. *)
Definition subscribe (once : bool) (name : string) (cb : Callback) (scope : nat) : M :=
  fun w => Done (mkWorld (assets w)
                   (subs w ++ [mkSub (next_sid w) name cb scope once])
                   (S (next_sid w)) (entities w) (renders w) (log w)).

(** Modelled from the spec: [registry.on(name, callback, scope)], a
    persistent subscription. *)
Definition registry_on := subscribe false.

(** Modelled from the spec: [registry.once(name, callback, scope)], a
    one-shot subscription, revoked by its first delivery. *)
Definition registry_once := subscribe true.

(** Modelled from the spec: [registry.off(name, callback, scope)] revokes
    every subscription of the key, and is a no-op when there is none. *)
Definition registry_off (name : string) (cb : Callback) (scope : nat) : M :=
  modify (set_subs (filter (fun s => sub_is name cb scope s = false))).

(** Modelled from the spec: the revocation of a one-shot subscription by
    its handle. *)
Definition revoke (sid : nat) : M :=
  modify (set_subs (filter (fun s => s_id s ≠ sid))).

(** Modelled from the spec: [registry.load(asset)] begins an asynchronous
    load and returns; completion is seen later as a [load:] event. *)
Definition registry_load (c : ContainerAsset) : M :=
  modify (add_log (EvLoad (ca_id c))).

(** Modelled from the spec: [Render.destroy()], the teardown of a render
    resource, after which it no longer holds the meshes (class Render is not
    among the sources). *)
Definition Render_destroy (r : Render) : Render := mkRender None.

(** ** The binder *)

(** [function onContainerAssetLoaded(containerAsset)], [this = renderAsset]. *)
Definition onContainerAssetLoaded (this : nat) (containerAsset : ContainerAsset) : M :=
  fun w =>
    let renderAsset := entities w this in
    match ra_resource renderAsset with
    | None => Done w
    | Some r =>
      match ca_resource containerAsset with
      | None => Throw w
      | Some containerResource =>
        let render :=
          match cr_renders containerResource with
          | None => None
          | Some a => js_index a (renderIndex (data renderAsset))
          end in
        match render with
        | None => Done w
        | Some h =>
          match h_resource h with
          | None => Throw w
          | Some rr =>
            Done (add_log (EvAssign this r (rr_meshes rr))
                    (set_render r (mkRender (rr_meshes rr)) w))
          end
        end
      end
    end.

(** [function onContainerAssetAdded(containerAsset)], [this = renderAsset]. *)
Definition onContainerAssetAdded (this : nat) (containerAsset : ContainerAsset) : M :=
  registry_off ("load:" +:+ ca_id containerAsset) CbLoaded this ;;;
  registry_on ("load:" +:+ ca_id containerAsset) CbLoaded this ;;;
  registry_off ("remove:" +:+ ca_id containerAsset) CbRemoved this ;;;
  registry_once ("remove:" +:+ ca_id containerAsset) CbRemoved this ;;;
  match ca_resource containerAsset with
  | None => registry_load containerAsset
  | Some _ => onContainerAssetLoaded this containerAsset
  end.

(** [function onContainerAssetRemoved(containerAsset)], [this = renderAsset]. *)
Definition onContainerAssetRemoved (this : nat) (containerAsset : ContainerAsset) : M :=
  registry_off ("load:" +:+ ca_id containerAsset) CbLoaded this ;;;
  fun w =>
    match ra_resource (entities w this) with
    | Some r =>
      Done (add_log (EvDestroy this r) (set_render r (Render_destroy (renders w r)) w))
    | None => Done w
    end.

(** [RenderHandler.open(url, data)]: [new Render()], a new resource that
    holds no meshes. *)
Definition open : Render := mkRender None.

(** [RenderHandler.patch(asset, registry)]; the registry is the one the
    render asset belongs to ([asset.registry]), and [registry.get(id)] is
    the lookup of [id] in its asset table. *)
Definition patch (asset : nat) : M :=
  fun w =>
    match truthy_id (containerAsset (data (entities w asset))) with
    | None => Done w
    | Some id =>
      match assets w !! id with
      | None => registry_once ("add:" +:+ id) CbAdded asset w
      | Some containerAsset => onContainerAssetAdded asset containerAsset w
      end
    end.

(** ** Event delivery *)

(** The call of a subscribed callback with [this = scope]. *)
Definition dispatch (cb : Callback) (scope : nat) (arg : ContainerAsset) : M :=
  match cb with
  | CbLoaded => onContainerAssetLoaded scope arg
  | CbAdded => onContainerAssetAdded scope arg
  | CbRemoved => onContainerAssetRemoved scope arg
  end.

(** Modelled from the spec: the delivery of an event to one listener.  A
    one-shot subscription is revoked by its delivery: it has been revoked
    when its callback runs. *)
Definition deliver (s : Sub) (arg : ContainerAsset) : M :=
  (if s_once s then revoke (s_id s) else skip) ;;;
  modify (add_log (EvCall (s_cb s) (s_scope s) (ca_id arg))) ;;;
  dispatch (s_cb s) (s_scope s) arg.

(** Modelled from the spec: the deliveries of one emission, in order; an
    exception of a listener ends the emission. *)
Fixpoint fire_loop (l : list Sub) (arg : ContainerAsset) : M :=
  match l with
  | [] => skip
  | s :: l' => deliver s arg ;;; fire_loop l' arg
  end.

(** Modelled from the spec: [registry.fire(name, asset)], the emission of
    an event by the registry.  The listeners subscribed under [name] when
    the emission starts are invoked in subscription order with the asset as
    argument. *)
Definition fire (name : string) (arg : ContainerAsset) : M :=
  fun w => fire_loop (filter (fun s => s_name s = name) (subs w)) arg w.

(** ** Observations *)

(** [entity.resource.meshes], when the render asset has a resource and its
    [meshes] is set. *)
Definition entity_meshes (w : World) (e : nat) : option loc :=
  match ra_resource (entities w e) with
  | Some r => meshes (renders w r)
  | None => None
  end.

(** [container.resource.renders[i].resource.meshes], when every step of the
    path exists and the entry's [meshes] is set. *)
Definition container_meshes (c : ContainerAsset) (i : Z) : option loc :=
  match ca_resource c with
  | None => None
  | Some cr =>
    match cr_renders cr with
    | None => None
    | Some a =>
      match js_index a i with
      | None => None
      | Some h =>
        match h_resource h with
        | None => None
        | Some rr => rr_meshes rr
        end
      end
    end
  end.

(** [container.resource.renders && container.resource.renders[i]] of a
    loaded container. *)
Definition container_entry (cr : ContainerResource) (i : Z) : option RenderHandle :=
  match cr_renders cr with
  | None => None
  | Some a => js_index a i
  end.

(** [container.resource.renders[i].resource]: the resource of the entry,
    when the container is loaded and the entry exists and has one. *)
Definition entry_resource (c : ContainerAsset) (i : Z) : option RenderResource :=
  match ca_resource c with
  | None => None
  | Some cr =>
    match container_entry cr i with
    | None => None
    | Some h => h_resource h
    end
  end.

(** Number of subscriptions of the key [(name, cb, scope)]. *)
Definition count_subs (name : string) (cb : Callback) (scope : nat) (l : list Sub) : nat :=
  length (filter (fun s => sub_is name cb scope s = true) l).

(** Number of times the trace shows an event satisfying [p]. *)
Definition count_events (p : Event -> bool) (l : list Event) : nat :=
  length (filter (fun ev => p ev = true) l).

Definition is_assign_of (e : nat) (ev : Event) : bool :=
  match ev with EvAssign e' _ _ => Nat.eqb e' e | _ => false end.

Definition is_destroy_of (e : nat) (ev : Event) : bool :=
  match ev with EvDestroy e' _ => Nat.eqb e' e | _ => false end.

Definition is_call_of (cb : Callback) (e : nat) (ev : Event) : bool :=
  match ev with EvCall cb' e' _ => Callback_eqb cb' cb && Nat.eqb e' e | _ => false end.

(** ** Well-formed states *)

(** Every subscription the binder makes: [onContainerAssetLoaded] under a
    [load:] name with [on], [onContainerAssetAdded] under an [add:] name
    with [once], [onContainerAssetRemoved] under a [remove:] name with
    [once]. *)
Definition sub_wf (s : Sub) : bool :=
  match s_cb s with
  | CbLoaded => String.prefix "load:" (s_name s) && negb (s_once s)
  | CbAdded => String.prefix "add:" (s_name s) && s_once s
  | CbRemoved => String.prefix "remove:" (s_name s) && s_once s
  end.

Definition subs_wf (w : World) : Prop :=
  Forall (fun s => sub_wf s = true) (subs w).

(** No two render assets wrap the same [Render] object: [open] makes a new
    one for each. *)
Definition unshared (w : World) : Prop :=
  forall e1 e2 r,
    ra_resource (entities w e1) = Some r ->
    ra_resource (entities w e2) = Some r -> e1 = e2.

(** Every entry of [renders] that is present has a resource. *)
Definition entries_ok (cr : ContainerResource) : bool :=
  match cr_renders cr with
  | None => true
  | Some a =>
    forallb (fun o => match o with
                      | Some h => match h_resource h with Some _ => true | None => false end
                      | None => true
                      end) a
  end.

Definition container_ok (c : ContainerAsset) : bool :=
  match ca_resource c with
  | None => true
  | Some cr => entries_ok cr
  end.

Definition loaded (c : ContainerAsset) : bool :=
  match ca_resource c with Some _ => true | None => false end.

(** Listener [s] does not throw on the asset [c]: [onContainerAssetLoaded]
    needs a loaded container, and an entry it reads must have a resource. *)
Definition safe (c : ContainerAsset) (s : Sub) : Prop :=
  match s_cb s with
  | CbLoaded => loaded c = true /\ container_ok c = true
  | CbAdded => container_ok c = true
  | CbRemoved => True
  end.

(** ** Runs of the system *)

(** What can happen, one at a time (single control flow): a call of
    [patch], the emission of an event by the registry, a change of the
    registry's asset table. *)
Inductive Action :=
| ABind (e : nat)
| AEmit (name : string) (c : ContainerAsset)
| AStore (id : string) (c : option ContainerAsset).

Definition perform (a : Action) : M :=
  match a with
  | ABind e => patch e
  | AEmit name c => fire name c
  | AStore id c => modify (set_asset id c)
  end.

(** The state in which a call leaves the system, returned or thrown. *)
Definition after (m : M) (w : World) : World := final (m w).

(** A state before any binding: nothing subscribed, nothing traced, every
    [Render] as [open] made it. *)
Definition initial (w : World) : Prop :=
  subs w = [] /\ log w = [] /\ (forall r, renders w r = open) /\ unshared w.

Inductive reachable : World -> Prop :=
| reach_init w : initial w -> reachable w
| reach_step w a : reachable w -> reachable (after (perform a) w).

(** Whether, by the trace, render asset [e] is bound: the last of its
    assignments and teardowns is an assignment. *)
Definition bound_step (e : nat) (b : bool) (ev : Event) : bool :=
  match ev with
  | EvAssign e' _ _ => if Nat.eqb e' e then true else b
  | EvDestroy e' _ => if Nat.eqb e' e then false else b
  | _ => b
  end.

Definition bound (tr : list Event) (e : nat) : bool :=
  fold_left (bound_step e) tr false.

(** The same in words: an assignment by [e] with no teardown of [e] after
    it. *)
Definition bound_in (tr : list Event) (e : nat) : Prop :=
  exists tr1 r l tr2,
    tr = tr1 ++ EvAssign e r l :: tr2 /\ count_events (is_destroy_of e) tr2 = 0.

(** What, by the trace, the [meshes] of render asset [e]'s resource holds:
    the value its last assignment copied, nothing after a teardown or
    before any assignment. *)
Definition held_step (e : nat) (v : option loc) (ev : Event) : option loc :=
  match ev with
  | EvAssign e' _ l => if Nat.eqb e' e then l else v
  | EvDestroy e' _ => if Nat.eqb e' e then None else v
  | _ => v
  end.

Definition held (tr : list Event) (e : nat) : option loc :=
  fold_left (held_step e) tr None.

(** The same in words: an assignment by [e] that copied the list [l], with
    no assignment by [e] and no teardown of [e] after it. *)
Definition last_assigned (tr : list Event) (e : nat) (l : loc) : Prop :=
  exists tr1 r tr2,
    tr = tr1 ++ EvAssign e r (Some l) :: tr2 /\
    count_events (is_assign_of e) tr2 = 0 /\
    count_events (is_destroy_of e) tr2 = 0.

(** An unsubscription followed by a subscription of the same key, as
    [onContainerAssetAdded] does twice. *)
Definition resubscribe (once : bool) (name : string) (cb : Callback) (scope : nat) : M :=
  registry_off name cb scope ;;; subscribe once name cb scope.

(** The subscriptions after the four registry calls of
    [onContainerAssetAdded], from the subscriptions [l] before them;
    [n] is the identity of the next handle. *)
Definition resubscribed (e : nat) (cid : string) (n : nat) (l : list Sub) : list Sub :=
  filter (fun s => sub_is ("remove:" +:+ cid) CbRemoved e s = false)
    (filter (fun s => sub_is ("load:" +:+ cid) CbLoaded e s = false) l
     ++ [mkSub n ("load:" +:+ cid) CbLoaded e false])
  ++ [mkSub (S n) ("remove:" +:+ cid) CbRemoved e true].

Definition with_resubscribed (e : nat) (cid : string) (w : World) : World :=
  mkWorld (assets w) (resubscribed e cid (next_sid w) (subs w))
    (S (S (next_sid w))) (entities w) (renders w) (log w).

(** [n] calls of [m], one after the other, thrown or not. *)
Fixpoint repeat_call (n : nat) (m : M) (w : World) : World :=
  match n with
  | O => w
  | S n' => after m (repeat_call n' m w)
  end.

(** ** Invariants of the reachable states *)

(** At most one subscription for each key of [onContainerAssetLoaded] and
    of [onContainerAssetRemoved]. *)
Definition one_per_key (w : World) : Prop :=
  forall name cb scope, cb <> CbAdded -> count_subs name cb scope (subs w) <= 1.

(** The state agrees with the trace on what each render asset holds. *)
Definition held_matches (w : World) : Prop :=
  unshared w /\ forall e, entity_meshes w e = held (log w) e.

(** The subscriptions made on behalf of render asset [e]. *)
Definition subs_of (e : nat) (l : list Sub) : list Sub :=
  filter (fun s => s_scope s = e) l.

(** The events of the trace that are calls or effects of render asset [e]. *)
Definition event_of (e : nat) (ev : Event) : bool :=
  match ev with
  | EvCall _ e' _ => Nat.eqb e' e
  | EvAssign e' _ _ => Nat.eqb e' e
  | EvDestroy e' _ => Nat.eqb e' e
  | EvLoad _ => false
  end.

Definition events_of (e : nat) (tr : list Event) : list Event :=
  filter (fun ev => event_of e ev = true) tr.

(** From [w0] to [w] nothing happened to render asset [e]: the render
    assets are the same, its Render object is as it was, the trace has no
    new event of it, and no subscription was made on its behalf. *)
Definition untouched (e : nat) (w0 w : World) : Prop :=
  entities w = entities w0 /\
  (forall r, ra_resource (entities w0 e) = Some r -> renders w r = renders w0 r) /\
  events_of e (log w) = events_of e (log w0) /\
  sublist (subs_of e (subs w)) (subs_of e (subs w0)).


(** Render asset [e] is as [open] left it: nothing is subscribed on its
    behalf, its resource holds no meshes, and the trace has no call or
    effect of it. *)
Definition unbound_state (e : nat) (w : World) : Prop :=
  subs_of e (subs w) = [] /\ entity_meshes w e = None /\ events_of e (log w) = [].

(** ** Example states *)

(** Render asset [e] refers to container "C1", entry 0, and wraps the
    Render object [e], which is as [open] made it; nothing is registered. *)
Definition ex_world : World :=
  mkWorld ∅ [] 0
    (fun e => mkRenderAsset (mkRenderData (Some "C1") 0) (Some e))
    (fun _ => open) [].

(** The same, the render assets without a container reference. *)
Definition ex_world_unbound : World :=
  mkWorld ∅ [] 0
    (fun e => mkRenderAsset (mkRenderData None 0) (Some e))
    (fun _ => open) [].

(** The same as [ex_world], the render assets without a resource. *)
Definition ex_world_cleared : World :=
  mkWorld ∅ [] 0
    (fun e => mkRenderAsset (mkRenderData (Some "C1") 0) None)
    (fun _ => open) [].

(** Container "C1", not loaded. *)
Definition ex_unloaded : ContainerAsset := mkContainerAsset "C1" None.

(** Container "C1", loaded, its one entry holding the mesh list 42. *)
Definition ex_loaded : ContainerAsset :=
  mkContainerAsset "C1"
    (Some (mkContainerResource
             (Some [Some (mkRenderHandle (Some (mkRenderResource (Some 42))))]))).

(** Container "C1", loaded, its one entry a resource whose [meshes] is
    unset. *)
Definition ex_null : ContainerAsset :=
  mkContainerAsset "C1"
    (Some (mkContainerResource
             (Some [Some (mkRenderHandle (Some (mkRenderResource None)))]))).

(** The state after [patch] for render asset 3 with [ex_null] in the
    registry. *)
Definition ex_null_bound : World :=
  after (patch 3) (set_asset "C1" (Some ex_null) ex_world).

(** Container "C1", loaded, its one entry without a resource. *)
Definition ex_hollow : ContainerAsset :=
  mkContainerAsset "C1"
    (Some (mkContainerResource (Some [Some (mkRenderHandle None)]))).

(** [ex_world] with the loaded container in the registry. *)
Definition ex_world_loaded : World := set_asset "C1" (Some ex_loaded) ex_world.

(** Render asset 3 bound: the state after [patch] in [ex_world_loaded]. *)
Definition ex_bound : World := after (patch 3) ex_world_loaded.

(** Successive emissions of the event [name], one for each asset of [cs]. *)
Fixpoint fire_all (name : string) (cs : list ContainerAsset) : M :=
  match cs with
  | [] => skip
  | c :: cs' => fire name c ;;; fire_all name cs'
  end.

(** A request to load a container, in the trace. *)
Definition is_load (ev : Event) : bool :=
  match ev with EvLoad _ => true | _ => false end.

(** The listeners of the event [name]. *)
Definition listeners (name : string) (w : World) : list Sub :=
  filter (fun s => s_name s = name) (subs w).

(** Container "C2", loaded, its one entry holding the mesh list 43. *)
Definition ex_loaded2 : ContainerAsset :=
  mkContainerAsset "C2"
    (Some (mkContainerResource
             (Some [Some (mkRenderHandle (Some (mkRenderResource (Some 43))))]))).

(** Container "C1", loaded again, its one entry holding the mesh list 43. *)
Definition ex_reloaded : ContainerAsset :=
  mkContainerAsset "C1"
    (Some (mkContainerResource
             (Some [Some (mkRenderHandle (Some (mkRenderResource (Some 43))))]))).

(** Render asset 3 of [ex_world] bound to container "C1", then to
    container "C2". *)
Definition ex_rebound : World :=
  after (onContainerAssetAdded 3 ex_loaded2)
    (after (onContainerAssetAdded 3 ex_loaded) ex_world).

(** Container "C1", loaded, with two entries, the mesh lists 42 and 43. *)
Definition ex_pair : ContainerAsset :=
  mkContainerAsset "C1"
    (Some (mkContainerResource
             (Some [Some (mkRenderHandle (Some (mkRenderResource (Some 42))));
                    Some (mkRenderHandle (Some (mkRenderResource (Some 43))))]))).

(** Render asset [e] refers to entry [e] of container "C1" and wraps the
    Render object [e]; nothing is registered. *)
Definition ex_world_indexed : World :=
  mkWorld ∅ [] 0
    (fun e => mkRenderAsset (mkRenderData (Some "C1") (Z.of_nat e)) (Some e))
    (fun _ => open) [].

(** Render assets 0 and 1 of [ex_world_indexed] waiting for the load of
    container "C1". *)
Definition ex_two_waiting : World :=
  after (onContainerAssetAdded 1 ex_unloaded)
    (after (onContainerAssetAdded 0 ex_unloaded) ex_world_indexed).

(** Container "C1", loaded, with two entries: the first without a
    resource, the second holding the mesh list 43. *)
Definition ex_mixed : ContainerAsset :=
  mkContainerAsset "C1"
    (Some (mkContainerResource
             (Some [Some (mkRenderHandle None);
                    Some (mkRenderHandle (Some (mkRenderResource (Some 43))))]))).

(** Render asset 0 of [ex_world_indexed] waiting for the load of container
    "C1", which is not in the registry: [patch], then [add:C1]. *)
Definition ex_other_waiting : World :=
  after (fire ("add:" +:+ "C1") ex_unloaded) (after (patch 0) ex_world_indexed).

(** With the container in the registry, not loaded: [patch] for render
    asset 0, then [patch] twice for render asset 1. *)
Definition ex_fanout : World :=
  repeat_call 2 (patch 1)
    (after (patch 0) (set_asset "C1" (Some ex_unloaded) ex_world_indexed)).

(** [ex_world] with the hollow container in the registry. *)
Definition ex_world_hollow : World := set_asset "C1" (Some ex_hollow) ex_world.

(** [ex_world] with the container in the registry, not loaded. *)
Definition ex_world_unloaded : World := set_asset "C1" (Some ex_unloaded) ex_world.

(** ** First properties of the callbacks *)

Lemma set_render_same r v w : renders (set_render r v w) r = v.
Proof. simpl. by rewrite Nat.eqb_refl. Qed.

Lemma set_render_other r r' v w : r' ≠ r -> renders (set_render r v w) r' = renders w r'.
Proof. intros H. simpl. apply Nat.eqb_neq in H. by rewrite H. Qed.

(** What [onContainerAssetLoaded] does on a render asset that has a
    resource, with a loaded container, by the entry at [renderIndex]. *)
Lemma onContainerAssetLoaded_entry e c w r cr :
  ra_resource (entities w e) = Some r ->
  ca_resource c = Some cr ->
  onContainerAssetLoaded e c w =
    match container_entry cr (renderIndex (data (entities w e))) with
    | None => Done w
    | Some h =>
      match h_resource h with
      | None => Throw w
      | Some rr => Done (add_log (EvAssign e r (rr_meshes rr))
                           (set_render r (mkRender (rr_meshes rr)) w))
      end
    end.
Proof.
  intros Hr Hc. unfold onContainerAssetLoaded, container_entry.
  rewrite Hr, Hc. reflexivity.
Qed.

Lemma onContainerAssetLoaded_assigns e c w r l :
  ra_resource (entities w e) = Some r ->
  container_meshes c (renderIndex (data (entities w e))) = Some l ->
  onContainerAssetLoaded e c w =
    Done (add_log (EvAssign e r (Some l)) (set_render r (mkRender (Some l)) w)).
Proof.
  intros Hr Hl. unfold container_meshes in Hl.
  destruct (ca_resource c) as [cr|] eqn:Hc; [|done].
  rewrite (onContainerAssetLoaded_entry _ _ _ _ _ Hr Hc). unfold container_entry.
  destruct (cr_renders cr) as [a|]; [|done].
  destruct (js_index a _) as [h|]; [|done].
  destruct (h_resource h) as [rr|]; [|done].
  by rewrite Hl.
Qed.

(** C7. When the render asset has no resource (it was cleared or destroyed
    while the load was pending), [onContainerAssetLoaded] returns at its
    guard: whatever the container is, the call returns normally and the
    state after it is the state before it, so nothing of the container has
    been read and nothing has been assigned. *)
Theorem onContainerAssetLoaded_no_resource_noop (e : nat) (w : World) :
  ra_resource (entities w e) = None ->
  forall c : ContainerAsset, onContainerAssetLoaded e c w = Done w.
Proof.
  intros Hr c. unfold onContainerAssetLoaded. by rewrite Hr.
Qed.

(** ** Sequencing *)

Lemma seq_assoc m1 m2 m3 w : ((m1 ;;; m2) ;;; m3) w = (m1 ;;; m2 ;;; m3) w.
Proof. unfold seq. by destruct (m1 w). Qed.

Lemma seq_done m1 m2 w w' : m1 w = Done w' -> (m1 ;;; m2) w = m2 w'.
Proof. unfold seq. by intros ->. Qed.

Lemma seq_modify f m w : (modify f ;;; m) w = m (f w).
Proof. reflexivity. Qed.

Lemma after_seq (P : World -> Prop) m1 m2 w :
  P (after m1 w) -> (forall w', m1 w = Done w' -> P (after m2 w')) ->
  P (after (m1 ;;; m2) w).
Proof.
  unfold after, seq. destruct (m1 w) as [w'|w']; simpl; intros H1 H2; auto.
Qed.

Lemma after_onContainerAssetAdded e c w :
  after (onContainerAssetAdded e c) w =
  after (resubscribe false ("load:" +:+ ca_id c) CbLoaded e ;;;
         resubscribe true ("remove:" +:+ ca_id c) CbRemoved e ;;;
         match ca_resource c with
         | None => registry_load c
         | Some _ => onContainerAssetLoaded e c
         end) w.
Proof. reflexivity. Qed.

Lemma after_modify f m w : after (modify f ;;; m) w = after m (f w).
Proof. reflexivity. Qed.

(** ** Invariants: a property kept by every primitive effect is kept by the
    callbacks, by [patch], by an emission, and holds in every reachable
    state.  [active] restricts the render assets on whose behalf the
    effects are made. *)
Section Preservation.
Variable I : World -> Prop.
Variable active : nat -> Prop.

Hypothesis I_off : forall name cb scope w,
  active scope -> I w -> I (after (registry_off name cb scope) w).
Hypothesis I_resub_load : forall id scope w,
  active scope -> I w -> I (after (resubscribe false ("load:" +:+ id) CbLoaded scope) w).
Hypothesis I_resub_remove : forall id scope w,
  active scope -> I w -> I (after (resubscribe true ("remove:" +:+ id) CbRemoved scope) w).
Hypothesis I_load : forall c w, I w -> I (after (registry_load c) w).
Hypothesis I_assign : forall e r l w,
  active e -> ra_resource (entities w e) = Some r -> I w ->
  I (add_log (EvAssign e r l) (set_render r (mkRender l) w)).
Hypothesis I_destroy : forall e r w,
  active e -> ra_resource (entities w e) = Some r -> I w ->
  I (add_log (EvDestroy e r) (set_render r (Render_destroy (renders w r)) w)).

Lemma onContainerAssetLoaded_preserves e c w :
  active e -> I w -> I (after (onContainerAssetLoaded e c) w).
Proof using I_assign.
  intros Ha Hw. unfold after, onContainerAssetLoaded.
  destruct (ra_resource (entities w e)) as [r|] eqn:Hr; [|done].
  destruct (ca_resource c) as [cr|]; [|done].
  destruct (match cr_renders cr with Some a => _ | None => None end) as [h|]; [|done].
  destruct (h_resource h) as [rr|]; [|done].
  simpl. by apply I_assign.
Qed.

Lemma onContainerAssetAdded_preserves e c w :
  active e -> I w -> I (after (onContainerAssetAdded e c) w).
Proof using I_assign I_load I_resub_load I_resub_remove.
  intros Ha Hw. rewrite after_onContainerAssetAdded.
  apply after_seq; [by apply I_resub_load|]. intros w1 H1.
  assert (I w1) as Hw1.
  { generalize (I_resub_load (ca_id c) e w Ha Hw). unfold after. by rewrite H1. }
  apply after_seq; [by apply I_resub_remove|]. intros w2 H2.
  assert (I w2) as Hw2.
  { generalize (I_resub_remove (ca_id c) e w1 Ha Hw1). unfold after. by rewrite H2. }
  destruct (ca_resource c); [by apply onContainerAssetLoaded_preserves | by apply I_load].
Qed.

Lemma onContainerAssetRemoved_preserves e c w :
  active e -> I w -> I (after (onContainerAssetRemoved e c) w).
Proof using I_destroy I_off.
  intros Ha Hw. unfold onContainerAssetRemoved.
  apply after_seq; [by apply I_off|]. intros w1 H1.
  assert (I w1) as Hw1.
  { generalize (I_off ("load:" +:+ ca_id c) CbLoaded e w Ha Hw). unfold after. by rewrite H1. }
  unfold after. destruct (ra_resource (entities w1 e)) as [r|] eqn:Hr; [|done].
  simpl. by apply I_destroy.
Qed.

Lemma dispatch_preserves cb e c w :
  active e -> I w -> I (after (dispatch cb e c) w).
Proof using I_assign I_destroy I_load I_off I_resub_load I_resub_remove.
  destruct cb; simpl.
  - apply onContainerAssetLoaded_preserves.
  - apply onContainerAssetAdded_preserves.
  - apply onContainerAssetRemoved_preserves.
Qed.

Hypothesis I_revoke : forall sid w, I w -> I (after (revoke sid) w).
Hypothesis I_call : forall cb scope cid w,
  active scope -> I w -> I (add_log (EvCall cb scope cid) w).

Lemma deliver_preserves s c w :
  active (s_scope s) -> I w -> I (after (deliver s c) w).
Proof using I_assign I_destroy I_load I_off I_resub_load I_resub_remove I_revoke I_call.
  intros Ha Hw. unfold deliver.
  assert (forall w, I w -> I (after (if s_once s then revoke (s_id s) else skip) w)) as H0.
  { intros w0 Hw0. destruct (s_once s); [by apply I_revoke | done]. }
  apply after_seq; [by apply H0|]. intros w1 H1.
  assert (I w1) as Hw1 by (generalize (H0 w Hw); unfold after; by rewrite H1).
  rewrite after_modify. apply dispatch_preserves; [done|]. by apply I_call.
Qed.

Lemma fire_loop_preserves l c w :
  Forall (fun s => active (s_scope s)) l -> I w -> I (after (fire_loop l c) w).
Proof using I_assign I_destroy I_load I_off I_resub_load I_resub_remove I_revoke I_call.
  intros Hl. revert w. induction Hl as [|s l Hs Hl IH]; intros w Hw; [done|].
  simpl. apply after_seq; [by apply deliver_preserves|]. intros w1 H1.
  apply IH. generalize (deliver_preserves s c w Hs Hw). unfold after. by rewrite H1.
Qed.

Hypothesis I_subs : forall w, I w -> Forall (fun s => active (s_scope s)) (subs w).

Lemma fire_preserves name c w : I w -> I (after (fire name c) w).
Proof using I_assign I_destroy I_load I_off I_resub_load I_resub_remove I_revoke I_call I_subs.
  intros Hw. unfold after, fire. apply fire_loop_preserves; [|done].
  generalize (I_subs w Hw). rewrite !Forall_forall. intros H s Hs.
  apply H. by apply list_elem_of_filter in Hs as [_ Hs].
Qed.

Hypothesis I_add : forall id scope w,
  active scope -> I w -> I (after (registry_once ("add:" +:+ id) CbAdded scope) w).
Hypothesis I_bind : forall w e id,
  I w -> truthy_id (containerAsset (data (entities w e))) = Some id -> active e.

Lemma patch_preserves e w : I w -> I (after (patch e) w).
Proof using I_assign I_load I_resub_load I_resub_remove I_add I_bind.
  intros Hw. unfold after, patch.
  destruct (truthy_id _) as [id|] eqn:Hid; [|done].
  pose proof (I_bind _ _ _ Hw Hid) as Ha.
  destruct (assets w !! id) as [c|].
  - by apply onContainerAssetAdded_preserves.
  - by apply I_add.
Qed.

Hypothesis I_store : forall id c w, I w -> I (set_asset id c w).

Lemma perform_preserves a w : I w -> I (after (perform a) w).
Proof using All.
  destruct a as [e|name c|id c]; simpl.
  - apply patch_preserves.
  - apply fire_preserves.
  - apply I_store.
Qed.

Lemma reachable_invariant :
  (forall w, initial w -> I w) -> forall w, reachable w -> I w.
Proof using All.
  intros Hinit w Hw. induction Hw as [w Hw|w a Hw IH]; [by apply Hinit|].
  by apply perform_preserves.
Qed.
End Preservation.

(** ** Keys and counts of subscriptions *)

Lemma Callback_eqb_eq a b : Callback_eqb a b = true <-> a = b.
Proof. destruct a, b; simpl; split; congruence. Qed.

Lemma sub_is_true name cb scope s :
  sub_is name cb scope s = true <->
  s_name s = name /\ s_cb s = cb /\ s_scope s = scope.
Proof.
  unfold sub_is. rewrite !andb_true_iff, String.eqb_eq, Callback_eqb_eq, Nat.eqb_eq.
  tauto.
Qed.

Lemma sub_is_mkSub name cb scope sid once : sub_is name cb scope (mkSub sid name cb scope once) = true.
Proof. by apply sub_is_true. Qed.

Lemma count_subs_app name cb scope l1 l2 :
  count_subs name cb scope (l1 ++ l2) =
  count_subs name cb scope l1 + count_subs name cb scope l2.
Proof. unfold count_subs. by rewrite filter_app, length_app. Qed.

Lemma count_subs_single name cb scope s :
  count_subs name cb scope [s] = if sub_is name cb scope s then 1 else 0.
Proof.
  unfold count_subs. rewrite filter_cons, filter_nil.
  destruct (sub_is name cb scope s); by case_decide.
Qed.

Lemma count_subs_filter_le name cb scope (P : Sub -> Prop) `{!forall s, Decision (P s)} l :
  count_subs name cb scope (filter P l) <= count_subs name cb scope l.
Proof.
  unfold count_subs. induction l as [|s l IH]; [done|].
  rewrite !filter_cons. destruct (decide (P s)).
  - rewrite filter_cons. case_decide; simpl; lia.
  - case_decide; simpl; lia.
Qed.

Lemma count_subs_off name cb scope l :
  count_subs name cb scope (filter (fun s => sub_is name cb scope s = false) l) = 0.
Proof.
  unfold count_subs. induction l as [|s l IH]; [done|].
  rewrite filter_cons. case_decide as H; [|done].
  rewrite filter_cons. case_decide; [congruence|done].
Qed.

Lemma count_subs_zero name cb scope l :
  count_subs name cb scope l = 0 <->
  Forall (fun s => sub_is name cb scope s = false) l.
Proof.
  unfold count_subs. induction l as [|s l IH]; [by split; [constructor|]|].
  rewrite filter_cons, Forall_cons. case_decide as H; simpl.
  - split; [lia|]. intros [H' _]. congruence.
  - rewrite IH. apply not_true_is_false in H. tauto.
Qed.

(** The three families of event names are disjoint, and a name determines
    the identifier. *)
Lemma load_name_inj a b : "load:" +:+ a = "load:" +:+ b -> a = b.
Proof. intros H. by simplify_eq/=. Qed.

Lemma remove_name_inj a b : "remove:" +:+ a = "remove:" +:+ b -> a = b.
Proof. intros H. by simplify_eq/=. Qed.

Lemma add_name_inj a b : "add:" +:+ a = "add:" +:+ b -> a = b.
Proof. intros H. by simplify_eq/=. Qed.

Lemma prefix_load id : String.prefix "load:" ("load:" +:+ id) = true.
Proof. by destruct id. Qed.

Lemma prefix_add id : String.prefix "add:" ("add:" +:+ id) = true.
Proof. by destruct id. Qed.

Lemma prefix_remove id : String.prefix "remove:" ("remove:" +:+ id) = true.
Proof. by destruct id. Qed.

Lemma sub_wf_load s id :
  sub_wf s = true -> s_name s = "load:" +:+ id -> s_cb s = CbLoaded /\ s_once s = false.
Proof.
  unfold sub_wf. intros H Hn. rewrite Hn in H.
  destruct (s_cb s).
  - by destruct (s_once s); rewrite ?andb_false_r in H.
  - change (String.prefix "add:" ("load:" +:+ id)) with false in H. done.
  - change (String.prefix "remove:" ("load:" +:+ id)) with false in H. done.
Qed.

Lemma sub_wf_add s id :
  sub_wf s = true -> s_name s = "add:" +:+ id -> s_cb s = CbAdded /\ s_once s = true.
Proof.
  unfold sub_wf. intros H Hn. rewrite Hn in H.
  destruct (s_cb s).
  - change (String.prefix "load:" ("add:" +:+ id)) with false in H. done.
  - by destruct (s_once s); rewrite ?andb_false_r in H.
  - change (String.prefix "remove:" ("add:" +:+ id)) with false in H. done.
Qed.

Lemma sub_wf_remove s id :
  sub_wf s = true -> s_name s = "remove:" +:+ id -> s_cb s = CbRemoved /\ s_once s = true.
Proof.
  unfold sub_wf. intros H Hn. rewrite Hn in H.
  destruct (s_cb s).
  - change (String.prefix "load:" ("remove:" +:+ id)) with false in H. done.
  - change (String.prefix "add:" ("remove:" +:+ id)) with false in H. done.
  - by destruct (s_once s); rewrite ?andb_false_r in H.
Qed.

(** ** The invariants *)

Ltac prim :=
  intros;
  unfold after, resubscribe, registry_off, registry_on, registry_once,
    registry_load, subscribe, revoke, modify, seq, set_subs in *;
  simpl in *.

(** The callbacks, [patch] and an emission never change a render asset
    (its [data], the reference to its resource). *)
Lemma entities_fire_loop l c w : entities (after (fire_loop l c) w) = entities w.
Proof.
  apply (fire_loop_preserves (fun w' => entities w' = entities w) (fun _ => True));
    try done.
  by apply Forall_forall.
Qed.

Lemma entities_perform a w : entities (after (perform a) w) = entities w.
Proof.
  apply (perform_preserves (fun w' => entities w' = entities w) (fun _ => True));
    try done.
  intros. by apply Forall_forall.
Qed.

Lemma entities_dispatch cb e c w : entities (after (dispatch cb e c) w) = entities w.
Proof.
  by apply (dispatch_preserves (fun w' => entities w' = entities w) (fun _ => True)).
Qed.

Lemma unshared_entities w w' : entities w' = entities w -> unshared w -> unshared w'.
Proof. unfold unshared. by intros ->. Qed.

(** The subscriptions stay well formed. *)
Lemma Forall_filter_keep {A} (P Q : A -> Prop) `{!forall x, Decision (Q x)} l :
  Forall P l -> Forall P (filter Q l).
Proof.
  rewrite !Forall_forall. intros HP x Hx. apply HP.
  by apply list_elem_of_filter in Hx as [_ Hx].
Qed.

Lemma subs_wf_app w s : subs_wf w -> sub_wf s = true -> Forall (fun s => sub_wf s = true) (subs w ++ [s]).
Proof. intros H Hs. apply Forall_app. split; [done|]. by repeat constructor. Qed.

Lemma wf_off name cb scope w : subs_wf w -> subs_wf (after (registry_off name cb scope) w).
Proof. unfold subs_wf. prim. by apply Forall_filter_keep. Qed.

Lemma wf_revoke sid w : subs_wf w -> subs_wf (after (revoke sid) w).
Proof. unfold subs_wf. prim. by apply Forall_filter_keep. Qed.

Lemma wf_resub_load id scope w :
  subs_wf w -> subs_wf (after (resubscribe false ("load:" +:+ id) CbLoaded scope) w).
Proof.
  unfold subs_wf. prim. apply Forall_app. split; [by apply Forall_filter_keep|].
  repeat constructor. unfold sub_wf. cbn [s_cb s_name s_once]. by rewrite prefix_load.
Qed.

Lemma wf_resub_remove id scope w :
  subs_wf w -> subs_wf (after (resubscribe true ("remove:" +:+ id) CbRemoved scope) w).
Proof.
  unfold subs_wf. prim. apply Forall_app. split; [by apply Forall_filter_keep|].
  repeat constructor. unfold sub_wf. cbn [s_cb s_name s_once]. by rewrite prefix_remove.
Qed.

Lemma wf_add id scope w :
  subs_wf w -> subs_wf (after (registry_once ("add:" +:+ id) CbAdded scope) w).
Proof.
  unfold subs_wf. prim. apply Forall_app. split; [done|].
  repeat constructor. unfold sub_wf. cbn [s_cb s_name s_once]. by rewrite prefix_add.
Qed.

Lemma subs_wf_fire_loop l c w : subs_wf w -> subs_wf (after (fire_loop l c) w).
Proof.
  apply (fire_loop_preserves subs_wf (fun _ => True));
    auto using wf_off, wf_revoke, wf_resub_load, wf_resub_remove.
  by apply Forall_forall.
Qed.

Lemma subs_wf_perform a w : subs_wf w -> subs_wf (after (perform a) w).
Proof.
  apply (perform_preserves subs_wf (fun _ => True));
    auto using wf_off, wf_revoke, wf_resub_load, wf_resub_remove, wf_add.
  intros. by apply Forall_forall.
Qed.

(** ** The callbacks, one call at a time *)

Lemma entity_meshes_assigned e r l ev w :
  ra_resource (entities w e) = Some r ->
  entity_meshes (add_log ev (set_render r (mkRender l) w)) e = l.
Proof. intros Hr. unfold entity_meshes. simpl. by rewrite Hr, Nat.eqb_refl. Qed.

Lemma onContainerAssetAdded_eq e c w :
  onContainerAssetAdded e c w =
  (match ca_resource c with
   | None => registry_load c
   | Some _ => onContainerAssetLoaded e c
   end) (with_resubscribed e (ca_id c) w).
Proof. reflexivity. Qed.

Lemma container_meshes_loaded c i l : container_meshes c i = Some l -> is_Some (ca_resource c).
Proof. unfold container_meshes. destruct (ca_resource c); [eauto|done]. Qed.

Lemma onContainerAssetAdded_assigns e c w r l :
  ra_resource (entities w e) = Some r ->
  container_meshes c (renderIndex (data (entities w e))) = Some l ->
  onContainerAssetAdded e c w =
    Done (add_log (EvAssign e r (Some l))
            (set_render r (mkRender (Some l)) (with_resubscribed e (ca_id c) w))).
Proof.
  intros Hr Hl. rewrite onContainerAssetAdded_eq.
  destruct (container_meshes_loaded _ _ _ Hl) as [cr ->].
  by apply onContainerAssetLoaded_assigns.
Qed.

Lemma patch_found e w id c :
  truthy_id (containerAsset (data (entities w e))) = Some id ->
  assets w !! id = Some c ->
  patch e w = onContainerAssetAdded e c w.
Proof. intros H1 H2. unfold patch. by rewrite H1, H2. Qed.

Lemma patch_not_found e w id :
  truthy_id (containerAsset (data (entities w e))) = Some id ->
  assets w !! id = None ->
  patch e w = registry_once ("add:" +:+ id) CbAdded e w.
Proof. intros H1 H2. unfold patch. by rewrite H1, H2. Qed.

(** C1. When the render asset refers to a container that is in the
    registry and loaded, and the entry at [renderIndex] exists and has a
    resource, [patch] returns with [entity.resource.meshes] assigned: it is
    the very list object of [container.resource.renders[renderIndex]
    .resource.meshes] (the same reference, no copy), with no event
    delivered in between. *)
Theorem patch_loaded_container_aliases_meshes (w : World) (e : nat)
    (cid : string) (c : ContainerAsset) (l : loc) :
  truthy_id (containerAsset (data (entities w e))) = Some cid ->
  assets w !! cid = Some c ->
  is_Some (ra_resource (entities w e)) ->
  container_meshes c (renderIndex (data (entities w e))) = Some l ->
  exists w',
    patch e w = Done w' /\
    entity_meshes w' e = container_meshes c (renderIndex (data (entities w' e))) /\
    entity_meshes w' e = Some l.
Proof.
  intros Hid Hc [r Hr] Hl.
  rewrite (patch_found _ _ _ _ Hid Hc), (onContainerAssetAdded_assigns _ _ _ _ _ Hr Hl).
  eexists. split; [reflexivity|].
  rewrite entity_meshes_assigned by done. simpl. by rewrite Hl.
Qed.

Lemma patch_loaded_container_aliases_meshes_witness :
  assets ex_world_loaded !! "C1" = Some ex_loaded /\
  container_meshes ex_loaded (renderIndex (data (entities ex_world_loaded 3))) = Some 42 /\
  exists w',
    patch 3 ex_world_loaded = Done w' /\
    entity_meshes w' 3 = container_meshes ex_loaded (renderIndex (data (entities w' 3))) /\
    entity_meshes w' 3 = Some 42.
Proof.
  split; [reflexivity|]. split; [reflexivity|].
  apply (patch_loaded_container_aliases_meshes ex_world_loaded 3 "C1" ex_loaded 42).
  - reflexivity.
  - reflexivity.
  - simpl. eauto.
  - reflexivity.
Defined.

Lemma onContainerAssetLoaded_no_resource_noop_witness :
  ra_resource (entities ex_world_cleared 3) = None /\
  forall c : ContainerAsset,
    onContainerAssetLoaded 3 c ex_world_cleared = Done ex_world_cleared.
Proof.
  split; [reflexivity|].
  apply (onContainerAssetLoaded_no_resource_noop 3 ex_world_cleared). reflexivity.
Defined.


Lemma js_index_out_of_range {A} (a : list (option A)) (i : Z) :
  (i < 0 \/ Z.of_nat (length a) <= i)%Z -> js_index a i = None.
Proof.
  intros H. unfold js_index. destruct (i <? 0)%Z eqn:Hi; [done|].
  apply Z.ltb_ge in Hi. rewrite (lookup_ge_None_2 a (Z.to_nat i)); [done|lia].
Qed.

(** C3, as the code has it. On a render asset that has a resource, with a
    loaded container, [onContainerAssetLoaded] goes by the entry at
    [renderIndex]: when [renders] is missing, the index is out of range or
    the entry is absent, the call returns and nothing has changed (the
    assignment is skipped silently); when the entry is present and has a
    resource, the call returns with [meshes] assigned from it; when the
    entry is present and has no resource, nothing is assigned and the call
    throws. *)
Theorem onContainerAssetLoaded_by_entry (e : nat) (c : ContainerAsset)
    (w : World) (r : nat) (cr : ContainerResource) :
  ra_resource (entities w e) = Some r ->
  ca_resource c = Some cr ->
  (cr_renders cr = None -> onContainerAssetLoaded e c w = Done w) /\
  (forall a, cr_renders cr = Some a ->
     (renderIndex (data (entities w e)) < 0 \/
      Z.of_nat (length a) <= renderIndex (data (entities w e)))%Z ->
     onContainerAssetLoaded e c w = Done w) /\
  match container_entry cr (renderIndex (data (entities w e))) with
  | None => onContainerAssetLoaded e c w = Done w
  | Some h =>
    match h_resource h with
    | Some rr =>
      exists w', onContainerAssetLoaded e c w = Done w' /\
                 entity_meshes w' e = rr_meshes rr /\
                 log w' = log w ++ [EvAssign e r (rr_meshes rr)]
    | None => onContainerAssetLoaded e c w = Throw w
    end
  end.
Proof.
  intros Hr Hc. rewrite (onContainerAssetLoaded_entry _ _ _ _ _ Hr Hc).
  unfold container_entry. split; [by intros ->|]. split.
  - intros a -> Hi. by rewrite js_index_out_of_range.
  - destruct (cr_renders cr) as [a|]; [|done].
    destruct (js_index a _) as [h|]; [|done].
    destruct (h_resource h) as [rr|]; [|done].
    eexists. split; [reflexivity|]. by rewrite entity_meshes_assigned.
Qed.

Lemma onContainerAssetLoaded_by_entry_witness :
  ra_resource (entities ex_world 3) = Some 3 /\
  exists w', onContainerAssetLoaded 3 ex_loaded ex_world = Done w' /\
             entity_meshes w' 3 = Some 42 /\
             log w' = log ex_world ++ [EvAssign 3 3 (Some 42)].
Proof.
  split; [reflexivity|].
  apply (onContainerAssetLoaded_by_entry 3 ex_loaded ex_world 3
           (mkContainerResource (Some [Some (mkRenderHandle (Some (mkRenderResource (Some 42))))])));
    reflexivity.
Defined.

(** C3 does not hold as stated: render asset 3 has a resource, the entry
    at its [renderIndex] is present and has no resource, and the call does
    not skip the assignment silently, it throws. *)
Lemma onContainerAssetLoaded_hollow_entry_throws :
  ra_resource (entities ex_world 3) = Some 3 /\
  container_entry (mkContainerResource (Some [Some (mkRenderHandle None)]))
    (renderIndex (data (entities ex_world 3))) = Some (mkRenderHandle None) /\
  onContainerAssetLoaded 3 ex_hollow ex_world = Throw ex_world /\
  returns (onContainerAssetLoaded 3 ex_hollow ex_world) = false.
Proof. repeat split. Qed.

(** C9. When the render asset has a resource, [onContainerAssetRemoved]
    calls [destroy] on it and returns; the render asset still refers to
    that same Render object, now destroyed. So the guard of
    [onContainerAssetLoaded] does not hold afterwards: a later call with a
    loaded container assigns [meshes] on the destroyed object. No call of
    the binder and no emission ever changes the reference. *)
Theorem onContainerAssetRemoved_keeps_resource (e : nat) (c : ContainerAsset)
    (w : World) (r : nat) :
  ra_resource (entities w e) = Some r ->
  exists w',
    onContainerAssetRemoved e c w = Done w' /\
    ra_resource (entities w' e) = Some r /\
    renders w' r = Render_destroy (renders w r) /\
    log w' = log w ++ [EvDestroy e r] /\
    (forall c' l,
       container_meshes c' (renderIndex (data (entities w' e))) = Some l ->
       exists w'', onContainerAssetLoaded e c' w' = Done w'' /\
                   entity_meshes w'' e = Some l) /\
    (forall a w0, ra_resource (entities (after (perform a) w0) e) =
                  ra_resource (entities w0 e)).
Proof.
  intros Hr. unfold onContainerAssetRemoved, seq, registry_off, modify.
  cbn [entities set_subs]. rewrite Hr. eexists. split; [reflexivity|].
  cbn [entities log add_log set_render set_subs]. split; [done|].
  split; [simpl; by rewrite Nat.eqb_refl|]. split; [done|]. split.
  - intros c' l Hl. eexists. split.
    + by apply onContainerAssetLoaded_assigns.
    + by apply entity_meshes_assigned.
  - intros a w0. by rewrite entities_perform.
Qed.

Lemma onContainerAssetRemoved_keeps_resource_witness :
  ra_resource (entities ex_bound 3) = Some 3 /\
  exists w',
    onContainerAssetRemoved 3 ex_loaded ex_bound = Done w' /\
    ra_resource (entities w' 3) = Some 3 /\
    renders w' 3 = Render_destroy (renders ex_bound 3) /\
    log w' = log ex_bound ++ [EvDestroy 3 3] /\
    (forall c' l,
       container_meshes c' (renderIndex (data (entities w' 3))) = Some l ->
       exists w'', onContainerAssetLoaded 3 c' w' = Done w'' /\
                   entity_meshes w'' 3 = Some l) /\
    (forall a w0, ra_resource (entities (after (perform a) w0) 3) =
                  ra_resource (entities w0 3)).
Proof.
  split; [reflexivity|].
  apply (onContainerAssetRemoved_keeps_resource 3 ex_loaded ex_bound 3). reflexivity.
Defined.

(** ** At most one subscription per key of [load:] and [remove:] *)

Lemma one_per_key_filter (P : Sub -> Prop) `{!forall s, Decision (P s)} w :
  one_per_key w -> one_per_key (set_subs (filter P) w).
Proof.
  intros Hone name cb scope Hcb. specialize (Hone name cb scope Hcb). simpl.
  pose proof (count_subs_filter_le name cb scope P (subs w)). lia.
Qed.

Lemma one_per_key_resubscribe once name cb scope w :
  one_per_key w -> one_per_key (after (resubscribe once name cb scope) w).
Proof.
  intros H name' cb' scope' Hcb. specialize (H name' cb' scope' Hcb). prim.
  rewrite count_subs_app, count_subs_single.
  destruct (sub_is name' cb' scope' _) eqn:Hs.
  - apply sub_is_true in Hs as (<- & <- & <-). simpl.
    by rewrite count_subs_off.
  - pose proof (count_subs_filter_le name' cb' scope'
                  (fun s => sub_is name cb scope s = false) (subs w)). lia.
Qed.

Lemma one_per_key_perform a w : one_per_key w -> one_per_key (after (perform a) w).
Proof.
  apply (perform_preserves one_per_key (fun _ => True)); try done.
  - intros. by apply one_per_key_filter.
  - intros. by apply one_per_key_resubscribe.
  - intros. by apply one_per_key_resubscribe.
  - intros. by apply one_per_key_filter.
  - intros. by apply Forall_forall.
  - intros id scope w0 _ H name cb scope' Hcb. specialize (H name cb scope' Hcb).
    prim. rewrite count_subs_app, count_subs_single.
    destruct (sub_is name cb scope' _) eqn:Hs; [|lia].
    apply sub_is_true in Hs as (_ & Hs & _). simpl in Hs. congruence.
Qed.

Lemma one_per_key_reachable w : reachable w -> one_per_key w.
Proof.
  induction 1 as [w (Hs & _)|w a _ IH]; [|by apply one_per_key_perform].
  intros name cb scope _. rewrite Hs. unfold count_subs. simpl. lia.
Qed.

Lemma subs_wf_reachable w : reachable w -> subs_wf w.
Proof.
  induction 1 as [w (Hs & _)|w a _ IH]; [|by apply subs_wf_perform].
  unfold subs_wf. rewrite Hs. constructor.
Qed.

Lemma unshared_reachable w : reachable w -> unshared w.
Proof.
  induction 1 as [w (_ & _ & _ & Hu)|w a _ IH]; [done|].
  eapply unshared_entities; [apply entities_perform|done].
Qed.

(** ** Bound by the trace, bound in the state *)

Lemma bound_snoc tr ev e : bound (tr ++ [ev]) e = bound_step e (bound tr e) ev.
Proof. unfold bound. by rewrite fold_left_app. Qed.

Lemma count_events_app p l1 l2 :
  count_events p (l1 ++ l2) = count_events p l1 + count_events p l2.
Proof. unfold count_events. by rewrite filter_app, length_app. Qed.

Lemma count_events_single p ev : count_events p [ev] = if p ev then 1 else 0.
Proof.
  unfold count_events. rewrite filter_cons, filter_nil.
  destruct (p ev); by case_decide.
Qed.

Lemma bound_in_snoc tr ev e :
  bound_in (tr ++ [ev]) e <->
  (exists r l, ev = EvAssign e r l) \/ (bound_in tr e /\ is_destroy_of e ev = false).
Proof.
  split.
  - intros (tr1 & r & l & tr2 & Heq & Hno).
    destruct tr2 as [|x tr2 _] using rev_ind.
    + apply app_inj_tail in Heq as [_ ->]. left. eauto.
    + rewrite app_comm_cons, app_assoc in Heq. apply app_inj_tail in Heq as [-> ->].
      rewrite count_events_app, count_events_single in Hno. right. split.
      * exists tr1, r, l, tr2. split; [done|lia].
      * destruct (is_destroy_of e x); [lia|done].
  - intros [(r & l & ->)|[(tr1 & r & l & tr2 & -> & Hno) Hev]].
    + exists tr, r, l, []. split; [done|]. done.
    + exists tr1, r, l, (tr2 ++ [ev]). split; [by rewrite <- app_assoc|].
      rewrite count_events_app, count_events_single, Hev. lia.
Qed.

Lemma bound_bound_in tr e : bound tr e = true <-> bound_in tr e.
Proof.
  induction tr as [|ev tr IH] using rev_ind.
  - split; [done|]. intros (tr1 & r & l & tr2 & Heq & _). by destruct tr1.
  - rewrite bound_snoc, bound_in_snoc, <- IH. unfold bound_step, is_destroy_of.
    destruct ev as [cb s cid|cid|e' r l|e' r].
    + split; [by right|]. by intros [(? & ? & ?)|[? _]].
    + split; [by right|]. by intros [(? & ? & ?)|[? _]].
    + destruct (Nat.eqb e' e) eqn:He.
      * apply Nat.eqb_eq in He as ->. split; [|done]. left. eauto.
      * split; [by right|]. intros [(? & ? & [= -> _ _])|[? _]]; [|done].
        by rewrite Nat.eqb_refl in He.
    + destruct (Nat.eqb e' e); [|split; [by right|by intros [(? & ? & ?)|[? _]]]].
      split; [done|]. by intros [(? & ? & ?)|[_ ?]].
Qed.

Lemma held_snoc tr ev e : held (tr ++ [ev]) e = held_step e (held tr e) ev.
Proof. unfold held. by rewrite fold_left_app. Qed.

Lemma last_assigned_snoc tr ev e l :
  last_assigned (tr ++ [ev]) e l <->
  (exists r, ev = EvAssign e r (Some l)) \/
  (last_assigned tr e l /\ is_assign_of e ev = false /\ is_destroy_of e ev = false).
Proof.
  split.
  - intros (tr1 & r & tr2 & Heq & Hna & Hnd).
    destruct tr2 as [|x tr2 _] using rev_ind.
    + apply app_inj_tail in Heq as [_ ->]. left. eauto.
    + rewrite app_comm_cons, app_assoc in Heq. apply app_inj_tail in Heq as [-> ->].
      rewrite count_events_app, count_events_single in Hna, Hnd. right. split.
      * exists tr1, r, tr2. split; [done|]. split; lia.
      * split.
        -- destruct (is_assign_of e x); [lia|done].
        -- destruct (is_destroy_of e x); [lia|done].
  - intros [(r & ->)|[(tr1 & r & tr2 & -> & Hna & Hnd) [Ha Hd]]].
    + exists tr, r, []. done.
    + exists tr1, r, (tr2 ++ [ev]). split; [by rewrite <- app_assoc|].
      rewrite !count_events_app, !count_events_single, Ha, Hd. split; lia.
Qed.

Lemma held_last_assigned tr e l : held tr e = Some l <-> last_assigned tr e l.
Proof.
  induction tr as [|ev tr IH] using rev_ind.
  - split; [done|]. intros (tr1 & r & tr2 & Heq & _). by destruct tr1.
  - rewrite held_snoc, last_assigned_snoc, <- IH.
    unfold held_step, is_assign_of, is_destroy_of.
    destruct ev as [cb s cid|cid|e' r v|e' r].
    + split; [by right|]. by intros [(? & ?)|[? _]].
    + split; [by right|]. by intros [(? & ?)|[? _]].
    + destruct (Nat.eqb e' e) eqn:He.
      * apply Nat.eqb_eq in He as ->. split.
        -- intros ->. left. eauto.
        -- intros [(? & [= -> ->])|[_ [? _]]]; done.
      * split; [by right|]. intros [(? & [= -> _ _])|[? _]]; [|done].
        by rewrite Nat.eqb_refl in He.
    + destruct (Nat.eqb e' e); [|split; [by right|by intros [(? & ?)|[? _]]]].
      split; [done|]. by intros [(? & ?)|[_ [_ ?]]].
Qed.

Lemma entity_meshes_set_render_other w e r v ev :
  unshared w -> (forall e', ra_resource (entities w e') = Some r -> e' <> e) ->
  entity_meshes (add_log ev (set_render r v w)) e = entity_meshes w e.
Proof.
  intros Hu Hne. unfold entity_meshes. simpl.
  destruct (ra_resource (entities w e)) as [r'|] eqn:Hr'; [|done].
  destruct (Nat.eqb r' r) eqn:Hrr; [|done].
  apply Nat.eqb_eq in Hrr as ->. by destruct (Hne e Hr').
Qed.

Lemma held_matches_add_log ev w :
  (forall e v, held_step e v ev = v) ->
  held_matches w -> held_matches (add_log ev w).
Proof.
  intros Hev [Hu H]. split; [done|]. intros e.
  cbn [log add_log]. rewrite held_snoc, Hev. apply H.
Qed.

Lemma held_matches_perform a w : held_matches w -> held_matches (after (perform a) w).
Proof.
  apply (perform_preserves held_matches (fun _ => True)); try done.
  - intros c w0 Hw0. by apply (held_matches_add_log (EvLoad (ca_id c))).
  - intros e r l w0 _ Hr [Hu H]. split; [done|]. intros e'.
    cbn [log add_log]. rewrite held_snoc. simpl.
    destruct (Nat.eqb e e') eqn:He.
    + apply Nat.eqb_eq in He as <-. by rewrite entity_meshes_assigned.
    + rewrite <- H. apply entity_meshes_set_render_other; [done|].
      intros e'' Hr''. rewrite (Hu _ _ _ Hr'' Hr). by apply Nat.eqb_neq.
  - intros e r w0 _ Hr [Hu H]. split; [done|]. intros e'.
    cbn [log add_log]. rewrite held_snoc. simpl.
    destruct (Nat.eqb e e') eqn:He.
    + apply Nat.eqb_eq in He as <-. unfold entity_meshes. simpl.
      by rewrite Hr, Nat.eqb_refl.
    + rewrite <- H. apply entity_meshes_set_render_other; [done|].
      intros e'' Hr''. rewrite (Hu _ _ _ Hr'' Hr). by apply Nat.eqb_neq.
  - intros cb scope cid w0 _ Hw0. by apply held_matches_add_log.
  - intros. by apply Forall_forall.
Qed.

Lemma held_matches_reachable w : reachable w -> held_matches w.
Proof.
  induction 1 as [w (_ & Hl & Hr & Hu)|w a _ IH]; [|by apply held_matches_perform].
  split; [done|]. intros e. rewrite Hl. unfold entity_meshes.
  destruct (ra_resource (entities w e)); [|done]. by rewrite Hr.
Qed.

(** C6, as the code has it. In every state reached from an initial state
    by calls of [patch], emissions of events and changes of the asset
    table, in any order, a render asset's [resource.meshes] is set, and is
    the list [l], if and only if the last of its assignments and teardowns
    in the trace is an assignment that copied the list [l]; an assignment
    that copied an unset [meshes] leaves it unset, as a teardown does. *)
Theorem meshes_held_iff_last_assignment (w : World) (e : nat) :
  reachable w ->
  (is_Some (entity_meshes w e) <-> exists l, last_assigned (log w) e l) /\
  (forall l, entity_meshes w e = Some l <-> last_assigned (log w) e l) /\
  entity_meshes w e = held (log w) e.
Proof.
  intros Hw. destruct (held_matches_reachable w Hw) as [_ H].
  assert (forall l, entity_meshes w e = Some l <-> last_assigned (log w) e l) as Hl.
  { intros l. by rewrite H, held_last_assigned. }
  split; [|by split]. split.
  - intros [l Hm]. exists l. by apply Hl.
  - intros [l Hm]. exists l. by apply Hl.
Qed.

(** C6 does not hold as stated: in a reachable state render asset 3 has
    made a mesh assignment (the bind went through, the entry at its
    [renderIndex] has a resource) and no teardown has occurred, and its
    [meshes] is unset, because the entry's resource held no meshes. *)
Lemma meshes_populated_iff_bound_fails :
  reachable ex_null_bound /\
  bound_in (log ex_null_bound) 3 /\
  entity_meshes ex_null_bound 3 = None /\
  ~ (is_Some (entity_meshes ex_null_bound 3) <-> bound_in (log ex_null_bound) 3).
Proof.
  assert (bound_in (log ex_null_bound) 3) as Hb.
  { exists [], 3, None, []. split; reflexivity. }
  assert (entity_meshes ex_null_bound 3 = None) as Hm by reflexivity.
  split; [|split; [done|split; [done|]]].
  - apply (reach_step (set_asset "C1" (Some ex_null) ex_world) (ABind 3)), reach_init.
    repeat split. intros e1 e2 r H1 H2. simpl in *. congruence.
  - intros [_ H]. destruct (H Hb) as [l Hl]. rewrite Hm in Hl. discriminate.
Qed.

(** ** What the others do leaves a render asset untouched *)

Lemma sublist_filter_mono {A} (P : A -> Prop) `{!forall x, Decision (P x)} l1 l2 :
  sublist l1 l2 -> sublist (filter P l1) (filter P l2).
Proof.
  induction 1 as [|x l1 l2 _ IH|x l1 l2 _ IH]; [constructor| |].
  - rewrite !filter_cons. case_decide; [by constructor|done].
  - rewrite filter_cons. case_decide; [by constructor|done].
Qed.

Lemma subs_of_filter e (P : Sub -> Prop) `{!forall x, Decision (P x)} l :
  sublist (subs_of e (filter P l)) (subs_of e l).
Proof. apply sublist_filter_mono, sublist_filter. Qed.

Lemma subs_of_snoc_other e l s : s_scope s <> e -> subs_of e (l ++ [s]) = subs_of e l.
Proof.
  intros Hs. unfold subs_of. rewrite filter_app, filter_cons, filter_nil.
  case_decide; [done|]. by rewrite app_nil_r.
Qed.

Lemma events_of_snoc e tr ev :
  events_of e (tr ++ [ev]) = events_of e tr ++ (if event_of e ev then [ev] else []).
Proof.
  unfold events_of. rewrite filter_app, filter_cons, filter_nil.
  destruct (event_of e ev); by case_decide.
Qed.

Lemma untouched_refl e w : untouched e w w.
Proof. by repeat split. Qed.

Section Untouched.
Variables (e : nat) (w0 : World).
Hypothesis Hu : unshared w0.

Lemma untouched_filter (P : Sub -> Prop) `{!forall x, Decision (P x)} w :
  untouched e w0 w -> untouched e w0 (set_subs (filter P) w).
Proof.
  intros (He & Hr & Hl & Hs). repeat split; try done. simpl.
  etrans; [apply subs_of_filter|done].
Qed.

Lemma untouched_resubscribe once name cb scope w :
  scope <> e -> untouched e w0 w -> untouched e w0 (after (resubscribe once name cb scope) w).
Proof.
  intros Ha (He & Hr & Hl & Hs). repeat split; try done. prim.
  rewrite subs_of_snoc_other by done. etrans; [apply subs_of_filter|done].
Qed.

Lemma untouched_subscribe once name cb scope w :
  scope <> e -> untouched e w0 w -> untouched e w0 (after (subscribe once name cb scope) w).
Proof.
  intros Ha (He & Hr & Hl & Hs). repeat split; try done. prim.
  by rewrite subs_of_snoc_other.
Qed.

Lemma untouched_add_log ev w : event_of e ev = false -> untouched e w0 w -> untouched e w0 (add_log ev w).
Proof.
  intros Hev (He & Hr & Hl & Hs). repeat split; try done.
  cbn [log add_log]. by rewrite events_of_snoc, Hev, app_nil_r.
Qed.

Lemma untouched_set_render e' r' v ev w :
  e' <> e -> ra_resource (entities w e') = Some r' -> event_of e ev = false ->
  untouched e w0 w -> untouched e w0 (add_log ev (set_render r' v w)).
Proof using Hu.
  intros Ha Hr' Hev Hw. apply untouched_add_log; [done|].
  destruct Hw as (He & Hr & Hl & Hs). repeat split; try done.
  intros r Hre. rewrite <- Hr by done. simpl.
  destruct (Nat.eqb r r') eqn:Hrr; [|done].
  apply Nat.eqb_eq in Hrr as ->. rewrite He in Hr'.
  by destruct (Ha (Hu _ _ _ Hr' Hre)).
Qed.

Lemma untouched_dispatch cb e' c w :
  e' <> e -> untouched e w0 w -> untouched e w0 (after (dispatch cb e' c) w).
Proof using Hu.
  apply (dispatch_preserves (untouched e w0) (fun e' => e' <> e)).
  - intros. by apply untouched_filter.
  - intros. by apply untouched_resubscribe.
  - intros. by apply untouched_resubscribe.
  - intros. by apply untouched_add_log.
  - intros e1 r l w1 Ha Hr. apply (untouched_set_render e1); [done..|].
    simpl. by apply Nat.eqb_neq.
  - intros e1 r w1 Ha Hr. apply (untouched_set_render e1); [done..|].
    simpl. by apply Nat.eqb_neq.
Qed.

Lemma untouched_fire_loop l c w :
  Forall (fun s => s_scope s <> e) l -> untouched e w0 w -> untouched e w0 (after (fire_loop l c) w).
Proof using Hu.
  apply (fire_loop_preserves (untouched e w0) (fun e' => e' <> e)).
  - intros. by apply untouched_filter.
  - intros. by apply untouched_resubscribe.
  - intros. by apply untouched_resubscribe.
  - intros. by apply untouched_add_log.
  - intros e1 r l1 w1 Ha Hr. apply (untouched_set_render e1); [done..|].
    simpl. by apply Nat.eqb_neq.
  - intros e1 r w1 Ha Hr. apply (untouched_set_render e1); [done..|].
    simpl. by apply Nat.eqb_neq.
  - intros. by apply untouched_filter.
  - intros cb scope cid w1 Ha. apply untouched_add_log. simpl. by apply Nat.eqb_neq.
Qed.

Lemma untouched_patch e' w : e' <> e -> untouched e w0 w -> untouched e w0 (after (patch e') w).
Proof using Hu.
  intros Ha Hw. unfold after, patch.
  destruct (truthy_id _) as [id|]; [|done].
  destruct (assets w !! id) as [c|].
  - by apply (untouched_dispatch CbAdded).
  - by apply untouched_subscribe.
Qed.
End Untouched.

(** ** When a call returns *)

Lemma returns_done (m : M) w : returns (m w) = true -> m w = Done (after m w).
Proof. unfold after. by destruct (m w). Qed.

Lemma returns_seq (m1 m2 : M) w :
  returns (m1 w) = true -> (forall w', returns (m2 w') = true) ->
  returns ((m1 ;;; m2) w) = true.
Proof. unfold seq. destruct (m1 w); [auto|done]. Qed.

Lemma js_index_elem {A} (a : list (option A)) i x : js_index a i = Some x -> Some x ∈ a.
Proof.
  unfold js_index. destruct (i <? 0)%Z; [done|].
  destruct (a !! Z.to_nat i) as [o|] eqn:Ha; [|done]. simpl. intros ->.
  by eapply list_elem_of_lookup_2.
Qed.

Lemma entries_ok_entry cr i h :
  entries_ok cr = true -> container_entry cr i = Some h -> is_Some (h_resource h).
Proof.
  unfold entries_ok, container_entry. destruct (cr_renders cr) as [a|]; [|done].
  rewrite forallb_forall. intros Hall Hi.
  apply js_index_elem, list_elem_of_In in Hi. specialize (Hall _ Hi). simpl in Hall.
  destruct (h_resource h); [eauto|done].
Qed.

Lemma onContainerAssetLoaded_returns e c w :
  container_ok c = true -> loaded c = true ->
  returns (onContainerAssetLoaded e c w) = true.
Proof.
  unfold container_ok, loaded. intros Hok Hl.
  destruct (ra_resource (entities w e)) as [r|] eqn:Hr;
    [|by unfold onContainerAssetLoaded; rewrite Hr].
  destruct (ca_resource c) as [cr|] eqn:Hc; [|done].
  rewrite (onContainerAssetLoaded_entry _ _ _ _ _ Hr Hc).
  destruct (container_entry cr _) as [h|] eqn:Hh; [|done].
  by destruct (entries_ok_entry _ _ _ Hok Hh) as [rr ->].
Qed.

Lemma onContainerAssetAdded_returns e c w :
  container_ok c = true -> returns (onContainerAssetAdded e c w) = true.
Proof.
  intros Hok. rewrite onContainerAssetAdded_eq.
  destruct (ca_resource c) eqn:Hc; [|done].
  apply onContainerAssetLoaded_returns; [done|]. unfold loaded. by rewrite Hc.
Qed.

Lemma onContainerAssetRemoved_returns e c w :
  returns (onContainerAssetRemoved e c w) = true.
Proof.
  unfold onContainerAssetRemoved, seq, registry_off, modify.
  by destruct (ra_resource _).
Qed.

Lemma deliver_returns s c w : safe c s -> returns (deliver s c w) = true.
Proof.
  unfold safe. intros Hs. unfold deliver.
  apply returns_seq; [by destruct (s_once s)|]. intros w1.
  apply returns_seq; [done|]. intros w2.
  destruct (s_cb s); simpl.
  - destruct Hs. by apply onContainerAssetLoaded_returns.
  - by apply onContainerAssetAdded_returns.
  - apply onContainerAssetRemoved_returns.
Qed.

Lemma fire_loop_returns l c w : Forall (safe c) l -> returns (fire_loop l c w) = true.
Proof.
  intros Hl. revert w. induction Hl as [|s l Hs Hl IH]; intros w; [done|].
  simpl. apply returns_seq; [by apply deliver_returns|apply IH].
Qed.

Lemma fire_loop_done l c w : Forall (safe c) l -> fire_loop l c w = Done (after (fire_loop l c) w).
Proof. intros Hl. by apply returns_done, fire_loop_returns. Qed.

Lemma safe_Forall (Q : Sub -> Prop) c l :
  Forall Q l -> (forall s, Q s -> safe c s) -> Forall (safe c) l.
Proof. intros Hl HQ. eapply Forall_impl; [exact Hl|]. done. Qed.

Lemma fire_loop_app l1 l2 c w :
  fire_loop (l1 ++ l2) c w = (fire_loop l1 c ;;; fire_loop l2 c) w.
Proof.
  revert w. induction l1 as [|s l1 IH]; intros w; [done|].
  simpl. unfold seq. destruct (deliver s c w) as [w'|w']; [|done].
  rewrite IH. reflexivity.
Qed.

Lemma fire_loop_single s c w : fire_loop [s] c w = deliver s c w.
Proof. simpl. unfold seq, skip. by destruct (deliver s c w). Qed.

(** The listeners of an emission, in a well-formed state. *)
Lemma listeners_load w id :
  subs_wf w ->
  Forall (fun s => s_cb s = CbLoaded /\ s_once s = false)
    (filter (fun s => s_name s = "load:" +:+ id) (subs w)).
Proof.
  unfold subs_wf. rewrite !Forall_forall. intros Hwf s Hs.
  apply list_elem_of_filter in Hs as [Hn Hs]. by eapply sub_wf_load; eauto.
Qed.

Lemma listeners_add w id :
  subs_wf w ->
  Forall (fun s => s_cb s = CbAdded /\ s_once s = true)
    (filter (fun s => s_name s = "add:" +:+ id) (subs w)).
Proof.
  unfold subs_wf. rewrite !Forall_forall. intros Hwf s Hs.
  apply list_elem_of_filter in Hs as [Hn Hs]. by eapply sub_wf_add; eauto.
Qed.

Lemma listeners_remove w id :
  subs_wf w ->
  Forall (fun s => s_cb s = CbRemoved /\ s_once s = true)
    (filter (fun s => s_name s = "remove:" +:+ id) (subs w)).
Proof.
  unfold subs_wf. rewrite !Forall_forall. intros Hwf s Hs.
  apply list_elem_of_filter in Hs as [Hn Hs]. by eapply sub_wf_remove; eauto.
Qed.

(** ** An emission whose last listener is known *)

Lemma fire_last name c w pre s :
  filter (fun s => s_name s = name) (subs w) = pre ++ [s] ->
  Forall (safe c) pre ->
  fire name c w = deliver s c (after (fire_loop pre c) w).
Proof.
  intros Hf Hpre. unfold fire. rewrite Hf, fire_loop_app.
  rewrite (seq_done _ _ _ _ (fire_loop_done pre c w Hpre)).
  apply fire_loop_single.
Qed.

Lemma filter_single_true {A} (P : A -> Prop) `{!forall x, Decision (P x)} x :
  P x -> filter P [x] = [x].
Proof. intros Hx. rewrite filter_cons, filter_nil. by case_decide. Qed.

Lemma filter_single_false {A} (P : A -> Prop) `{!forall x, Decision (P x)} x :
  ~ P x -> filter P [x] = [].
Proof. intros Hx. rewrite filter_cons, filter_nil. by case_decide. Qed.

Lemma sub_is_other_name name name' cb cb' scope scope' sid once :
  name <> name' -> sub_is name' cb' scope' (mkSub sid name cb scope once) = false.
Proof.
  intros Hn. apply not_true_iff_false. rewrite sub_is_true. simpl. tauto.
Qed.

Lemma load_remove_names a b : "load:" +:+ a <> "remove:" +:+ b.
Proof. intros H. discriminate H. Qed.

Lemma load_add_names a b : "load:" +:+ a <> "add:" +:+ b.
Proof. intros H. discriminate H. Qed.

Lemma remove_add_names a b : "remove:" +:+ a <> "add:" +:+ b.
Proof. intros H. discriminate H. Qed.

(** After the registry calls of [onContainerAssetAdded], the last listener
    of [load:<id>] is the one of this render asset. *)
Lemma listeners_load_resubscribed e cid n l :
  filter (fun s => s_name s = "load:" +:+ cid) (resubscribed e cid n l) =
  filter (fun s => s_name s = "load:" +:+ cid)
    (filter (fun s => sub_is ("remove:" +:+ cid) CbRemoved e s = false)
       (filter (fun s => sub_is ("load:" +:+ cid) CbLoaded e s = false) l))
  ++ [mkSub n ("load:" +:+ cid) CbLoaded e false].
Proof.
  unfold resubscribed. rewrite !filter_app.
  rewrite (filter_single_false _ (mkSub (S n) _ _ _ _)), app_nil_r.
  2:{ simpl. intros H. symmetry in H. by apply load_remove_names in H. }
  rewrite (filter_single_true (fun s => sub_is _ _ _ s = false)).
  2:{ apply sub_is_other_name, load_remove_names. }
  by rewrite filter_single_true.
Qed.

Lemma deliver_loaded s c w :
  s_cb s = CbLoaded -> s_once s = false ->
  deliver s c w =
  onContainerAssetLoaded (s_scope s) c (add_log (EvCall CbLoaded (s_scope s) (ca_id c)) w).
Proof. intros Hcb Ho. unfold deliver. by rewrite Hcb, Ho. Qed.

Lemma deliver_added s c w :
  s_cb s = CbAdded -> s_once s = true ->
  deliver s c w =
  onContainerAssetAdded (s_scope s) c
    (add_log (EvCall CbAdded (s_scope s) (ca_id c))
       (set_subs (filter (fun s' => s_id s' <> s_id s)) w)).
Proof. intros Hcb Ho. unfold deliver. by rewrite Hcb, Ho. Qed.

Lemma deliver_removed s c w :
  s_cb s = CbRemoved -> s_once s = true ->
  deliver s c w =
  onContainerAssetRemoved (s_scope s) c
    (add_log (EvCall CbRemoved (s_scope s) (ca_id c))
       (set_subs (filter (fun s' => s_id s' <> s_id s)) w)).
Proof. intros Hcb Ho. unfold deliver. by rewrite Hcb, Ho. Qed.

(** The deferred path, from the call of [patch] with the container missing
    to the state after [add:]: the listener of [load:] of the render asset
    is the last one. *)
Lemma deferred_bind_added w e cid c0 :
  subs_wf w ->
  truthy_id (containerAsset (data (entities w e))) = Some cid ->
  assets w !! cid = None ->
  cid = ca_id c0 -> ca_resource c0 = None ->
  exists w2 pre n,
    (patch e ;;; fire ("add:" +:+ cid) c0) w = Done w2 /\
    entities w2 = entities w /\
    filter (fun s => s_name s = "load:" +:+ cid) (subs w2) =
      pre ++ [mkSub n ("load:" +:+ cid) CbLoaded e false] /\
    Forall (fun s => s_cb s = CbLoaded /\ s_once s = false) pre.
Proof.
  intros Hwf Hid Hnone Hc0 Hun. subst cid.
  pose proof (subs_wf_perform (ABind e) w Hwf) as Hwf1.
  cbn [perform] in Hwf1. unfold after in Hwf1.
  rewrite (seq_done _ _ w _ (patch_not_found _ _ _ Hid Hnone)).
  rewrite (patch_not_found _ _ _ Hid Hnone) in Hwf1.
  cbn [final registry_once subscribe] in Hwf1.
  set (w1 := mkWorld _ _ _ _ _ _) in *.
  assert (container_ok c0 = true) as Hok0 by (unfold container_ok; by rewrite Hun).
  pose proof (listeners_add w (ca_id c0) Hwf) as Hadd.
  pose (wa := after (fire_loop (filter (fun s => s_name s = "add:" +:+ ca_id c0) (subs w)) c0) w1).
  pose (w2 := add_log (EvLoad (ca_id c0))
                (with_resubscribed e (ca_id c0)
                   (add_log (EvCall CbAdded e (ca_id c0))
                      (set_subs (filter (fun s' => s_id s' <> next_sid w)) wa)))).
  assert (fire ("add:" +:+ ca_id c0) c0 w1 = Done w2) as Hfire1.
  { rewrite (fire_last _ _ _ (filter (fun s => s_name s = "add:" +:+ ca_id c0) (subs w))
               (mkSub (next_sid w) ("add:" +:+ ca_id c0) CbAdded e true)); [| |].
    - rewrite deliver_added by done. cbn [s_scope s_id].
      rewrite onContainerAssetAdded_eq, Hun. reflexivity.
    - subst w1. cbn [subs]. by rewrite filter_app, filter_single_true.
    - eapply safe_Forall; [exact Hadd|]. intros s [Hs _]. unfold safe. by rewrite Hs. }
  assert (entities wa = entities w) as Hea by (subst wa; by rewrite entities_fire_loop).
  pose proof (subs_wf_perform (AEmit ("add:" +:+ ca_id c0) c0) w1 Hwf1) as Hwf2.
  cbn [perform] in Hwf2. unfold after in Hwf2. rewrite Hfire1 in Hwf2. cbn [final] in Hwf2.
  pose proof (listeners_load w2 (ca_id c0) Hwf2) as Hload.
  assert (exists pre n,
    filter (fun s => s_name s = "load:" +:+ ca_id c0) (subs w2) =
    pre ++ [mkSub n ("load:" +:+ ca_id c0) CbLoaded e false]) as (pre & n & Hpre).
  { subst w2. cbn [subs add_log with_resubscribed].
    rewrite listeners_load_resubscribed. eauto. }
  rewrite Hpre in Hload. apply Forall_app in Hload as [Hload _].
  exists w2, pre, n. split; [exact Hfire1|]. split; [|done].
  subst w2. simpl. exact Hea.
Qed.

(** If the two emissions run to the end, the render asset holds the list
    of its entry. *)
Lemma deferred_bind_completed w e cid c0 c1 r l w' :
  subs_wf w ->
  truthy_id (containerAsset (data (entities w e))) = Some cid ->
  assets w !! cid = None ->
  ra_resource (entities w e) = Some r ->
  cid = ca_id c0 -> ca_resource c0 = None ->
  container_meshes c1 (renderIndex (data (entities w e))) = Some l ->
  (patch e ;;; fire ("add:" +:+ cid) c0 ;;; fire ("load:" +:+ cid) c1) w = Done w' ->
  entity_meshes w' e = Some l.
Proof.
  intros Hwf Hid Hnone Hr Hc0 Hun Hl Hf.
  destruct (deferred_bind_added w e cid c0) as (w2 & pre & n & Hf2 & He2 & Hpre & _);
    try done.
  rewrite <- seq_assoc, (seq_done _ _ _ _ Hf2) in Hf.
  unfold fire in Hf. rewrite Hpre, fire_loop_app in Hf. unfold seq in Hf.
  destruct (fire_loop pre c1 w2) as [wb|wb] eqn:Hb; [|done].
  assert (entities wb = entities w) as Heb.
  { pose proof (entities_fire_loop pre c1 w2) as H. unfold after in H.
    rewrite Hb in H. simpl in H. congruence. }
  rewrite fire_loop_single, deliver_loaded in Hf by done. cbn [s_scope] in Hf.
  rewrite (onContainerAssetLoaded_assigns _ _ _ r l) in Hf
    by (cbn [entities add_log]; by rewrite Heb).
  injection Hf as <-. apply entity_meshes_assigned.
  cbn [entities add_log]. by rewrite Heb.
Qed.

(** The two emissions run to the end when every present entry of the loaded
    container has a resource. *)
Lemma deferred_bind w e cid c0 c1 r l :
  subs_wf w ->
  truthy_id (containerAsset (data (entities w e))) = Some cid ->
  assets w !! cid = None ->
  ra_resource (entities w e) = Some r ->
  cid = ca_id c0 -> ca_resource c0 = None ->
  container_ok c1 = true ->
  container_meshes c1 (renderIndex (data (entities w e))) = Some l ->
  exists w',
    (patch e ;;; fire ("add:" +:+ cid) c0 ;;; fire ("load:" +:+ cid) c1) w = Done w' /\
    entity_meshes w' e = Some l.
Proof.
  intros Hwf Hid Hnone Hr Hc0 Hun Hok1 Hl.
  destruct (deferred_bind_added w e cid c0) as (w2 & pre & n & Hf2 & He2 & Hpre & Hload);
    try done.
  assert (loaded c1 = true) as Hld1.
  { unfold loaded. by destruct (container_meshes_loaded _ _ _ Hl) as [? ->]. }
  assert (exists w', (patch e ;;; fire ("add:" +:+ cid) c0 ;;; fire ("load:" +:+ cid) c1) w
                     = Done w') as [w' Hw'].
  { rewrite <- seq_assoc, (seq_done _ _ _ _ Hf2), (fire_last _ _ _ _ _ Hpre).
    2:{ eapply safe_Forall; [exact Hload|]. intros s [Hs _]. unfold safe. by rewrite Hs. }
    rewrite deliver_loaded by done. cbn [s_scope].
    set (wb := after _ w2).
    assert (entities wb = entities w) as Heb.
    { subst wb. by rewrite entities_fire_loop. }
    rewrite (onContainerAssetLoaded_assigns _ _ _ r l)
      by (cbn [entities add_log]; by rewrite Heb).
    eauto. }
  exists w'. split; [done|]. by apply (deferred_bind_completed w e cid c0 c1 r l).
Qed.

(** C2, as the code has it. With the container missing from the registry
    when [patch] is called, the emission of [add:<id>] with the container
    not yet loaded and then of [load:<id>] with the container loaded,
    whenever the two emissions run to the end, ends with the same
    [entity.resource.meshes] as [patch] called with the loaded container in
    the registry: the reference of the entry's list.  They run to the end
    when every present entry of the loaded container has a resource, so
    that no listener of another render asset throws.  The registry's
    subscriptions are those the binder makes. *)
Theorem deferred_bind_same_as_synchronous (w : World) (e : nat) (cid : string)
    (c0 c1 : ContainerAsset) (l : loc) :
  subs_wf w ->
  truthy_id (containerAsset (data (entities w e))) = Some cid ->
  assets w !! cid = None ->
  is_Some (ra_resource (entities w e)) ->
  ca_id c0 = cid -> ca_resource c0 = None ->
  ca_id c1 = cid ->
  container_meshes c1 (renderIndex (data (entities w e))) = Some l ->
  exists w_sync,
    patch e (set_asset cid (Some c1) w) = Done w_sync /\
    entity_meshes w_sync e = Some l /\
    (forall w_async,
       (patch e ;;; fire ("add:" +:+ cid) c0 ;;; fire ("load:" +:+ cid) c1) w
         = Done w_async ->
       entity_meshes w_async e = entity_meshes w_sync e) /\
    (container_ok c1 = true ->
     exists w_async,
       (patch e ;;; fire ("add:" +:+ cid) c0 ;;; fire ("load:" +:+ cid) c1) w
         = Done w_async /\
       entity_meshes w_async e = entity_meshes w_sync e /\
       entity_meshes w_async e = Some l).
Proof.
  intros Hwf Hid Hnone [r Hr] Hc0 Hun Hc1 Hl.
  assert (exists w_sync, patch e (set_asset cid (Some c1) w) = Done w_sync /\
                         entity_meshes w_sync e = Some l) as (ws & Hs & Hms).
  { rewrite (patch_found e (set_asset cid (Some c1) w) cid c1); [|done|].
    - eexists. split; [by apply onContainerAssetAdded_assigns|].
      by rewrite entity_meshes_assigned.
    - simpl. apply lookup_insert_eq. }
  exists ws. split; [done|]. split; [done|]. split.
  - intros wa Ha. rewrite Hms.
    by apply (deferred_bind_completed w e cid c0 c1 r l).
  - intros Hok1.
    destruct (deferred_bind w e cid c0 c1 r l) as (wa & Ha & Hma); try done.
    exists wa. rewrite Hms. done.
Qed.

(** C2 does not hold as stated: in a reachable state where render asset 0
    waits for the load of the same container, with the container missing
    from the registry when [patch] is called for render asset 1, the
    emission of [load:C1] with the loaded container is ended by the
    listener of render asset 0, which throws on its own entry: render
    asset 1 is left without meshes, where [patch] called with the loaded
    container in the registry gives it the list of its entry. *)
Lemma deferred_bind_cut_short :
  reachable ex_other_waiting /\
  truthy_id (containerAsset (data (entities ex_other_waiting 1))) = Some "C1" /\
  assets ex_other_waiting !! "C1" = None /\
  ra_resource (entities ex_other_waiting 1) = Some 1 /\
  container_meshes ex_mixed (renderIndex (data (entities ex_other_waiting 1))) = Some 43 /\
  returns ((patch 1 ;;; fire ("add:" +:+ "C1") ex_unloaded ;;;
            fire ("load:" +:+ "C1") ex_mixed) ex_other_waiting) = false /\
  entity_meshes
    (after (patch 1 ;;; fire ("add:" +:+ "C1") ex_unloaded ;;;
            fire ("load:" +:+ "C1") ex_mixed) ex_other_waiting) 1 = None /\
  entity_meshes (after (patch 1) (set_asset "C1" (Some ex_mixed) ex_other_waiting)) 1
    = Some 43 /\
  entity_meshes
    (after (patch 1 ;;; fire ("add:" +:+ "C1") ex_unloaded ;;;
            fire ("load:" +:+ "C1") ex_mixed) ex_other_waiting) 1 <>
  entity_meshes (after (patch 1) (set_asset "C1" (Some ex_mixed) ex_other_waiting)) 1.
Proof.
  split.
  { apply (reach_step _ (AEmit ("add:" +:+ "C1") ex_unloaded)), (reach_step _ (ABind 0)).
    apply reach_init. repeat split.
    intros e1 e2 r H1 H2. cbn [ex_world_indexed entities ra_resource] in *.
    congruence. }
  repeat split; try (vm_compute; reflexivity).
  vm_compute. discriminate.
Qed.

(** ** An emission with exactly one listener of a render asset *)

Lemma filter_length_zero {A} (P : A -> Prop) `{!forall x, Decision (P x)} l :
  length (filter P l) = 0 -> Forall (fun x => ~ P x) l.
Proof.
  induction l as [|x l IH]; [constructor|].
  rewrite filter_cons. case_decide; [done|]. intros Hl. constructor; auto.
Qed.

Lemma filter_length_one_split {A} (P : A -> Prop) `{!forall x, Decision (P x)} l :
  length (filter P l) = 1 ->
  exists l1 x l2, l = l1 ++ x :: l2 /\ P x /\
                  Forall (fun y => ~ P y) l1 /\ Forall (fun y => ~ P y) l2.
Proof.
  induction l as [|x l IH]; [done|].
  rewrite filter_cons. case_decide as Hx.
  - simpl. intros Hl. exists [], x, l. repeat split; [done|constructor|].
    apply (filter_length_zero P). simpl in Hl. lia.
  - intros Hl. destruct (IH Hl) as (l1 & y & l2 & -> & Hy & H1 & H2).
    exists (x :: l1), y, l2. repeat split; [done| |done]. by constructor.
Qed.

Lemma listeners_of_count name cb e l :
  Forall (fun s => s_name s = name -> s_cb s = cb) l ->
  length (subs_of e (filter (fun s => s_name s = name) l)) = count_subs name cb e l.
Proof.
  unfold subs_of, count_subs. induction 1 as [|s l Hs _ IH]; [done|].
  rewrite !filter_cons. case_decide as Hn.
  - rewrite filter_cons. specialize (Hs Hn).
    case_decide as He; case_decide as Hk; simpl; rewrite ?IH; try done.
    + destruct Hk. by apply sub_is_true.
    + apply sub_is_true in Hk as (_ & _ & Hk). done.
  - case_decide as Hk; [|done]. apply sub_is_true in Hk as (Hk & _). done.
Qed.

Lemma count_subs_of name cb e l :
  count_subs name cb e l = count_subs name cb e (subs_of e l).
Proof.
  unfold count_subs, subs_of. rewrite list_filter_filter_l; [done|].
  intros s Hs. by apply sub_is_true in Hs as (_ & _ & Hs).
Qed.

Lemma count_subs_sublist name cb e l' l :
  sublist (subs_of e l') (subs_of e l) ->
  count_subs name cb e l' <= count_subs name cb e l.
Proof.
  intros Hsub. rewrite (count_subs_of _ _ _ l'), (count_subs_of _ _ _ l).
  unfold count_subs. by apply sublist_length, sublist_filter_mono.
Qed.

Lemma fire_through_one name c w e :
  Forall (safe c) (filter (fun s => s_name s = name) (subs w)) ->
  length (subs_of e (filter (fun s => s_name s = name) (subs w))) = 1 ->
  exists l1 s l2,
    filter (fun s => s_name s = name) (subs w) = l1 ++ s :: l2 /\
    s_scope s = e /\
    Forall (fun s => s_scope s <> e) l1 /\
    Forall (fun s => s_scope s <> e) l2 /\
    Forall (safe c) l2 /\
    fire name c w = (deliver s c ;;; fire_loop l2 c) (after (fire_loop l1 c) w).
Proof.
  intros Hsafe Hone.
  apply filter_length_one_split in Hone as (l1 & s & l2 & Heq & Hs & H1 & H2).
  exists l1, s, l2. rewrite Heq in Hsafe.
  apply Forall_app in Hsafe as [Hs1 Hs2]. apply Forall_cons in Hs2 as [_ Hs2].
  repeat split; try done.
  unfold fire. rewrite Heq, fire_loop_app.
  by rewrite (seq_done _ _ _ _ (fire_loop_done l1 c w Hs1)).
Qed.

Lemma length_one_elem {A} (l : list A) x : length l = 1 -> x ∈ l -> l = [x].
Proof.
  destruct l as [|y [|z l]]; try done. intros _ Hx.
  apply list_elem_of_singleton in Hx. by subst.
Qed.

(** Revoking the only subscription of a key leaves none. *)
Lemma count_subs_revoked name cb e s l0 l :
  count_subs name cb e l0 = 1 -> s ∈ l0 -> sub_is name cb e s = true ->
  sublist (subs_of e l) (subs_of e l0) ->
  count_subs name cb e (filter (fun s' => s_id s' <> s_id s) l) = 0.
Proof.
  intros Hone Hs Hk Hsub. apply count_subs_zero, Forall_forall. intros x Hx.
  apply list_elem_of_filter in Hx as [Hid Hx].
  apply not_true_is_false. intros Hkx.
  assert (x ∈ subs_of e l) as Hxe.
  { apply list_elem_of_filter. split; [|done]. by apply sub_is_true in Hkx as (_ & _ & ?). }
  apply (elem_of_sublist _ _ _ Hxe) in Hsub.
  apply list_elem_of_filter in Hsub as [_ Hx0].
  assert (filter (fun s => sub_is name cb e s = true) l0 = [s]) as Hf.
  { apply length_one_elem; [done|]. by apply list_elem_of_filter. }
  assert (x ∈ [s]) as Hxs by (rewrite <- Hf; by apply list_elem_of_filter).
  apply list_elem_of_singleton in Hxs. by subst.
Qed.

Lemma count_events_of p e tr :
  (forall ev, p ev = true -> event_of e ev = true) ->
  count_events p tr = count_events p (events_of e tr).
Proof.
  intros Hp. unfold count_events, events_of. by rewrite list_filter_filter_l.
Qed.

Lemma is_destroy_of_event e ev : is_destroy_of e ev = true -> event_of e ev = true.
Proof. by destruct ev. Qed.

Lemma is_assign_of_event e ev : is_assign_of e ev = true -> event_of e ev = true.
Proof. by destruct ev. Qed.

Lemma is_call_of_event cb e ev : is_call_of cb e ev = true -> event_of e ev = true.
Proof. destruct ev; try done. simpl. by intros [_ ?]%andb_true_iff. Qed.

Lemma untouched_unshared e w0 w : untouched e w0 w -> unshared w0 -> unshared w.
Proof. intros (He & _). by apply unshared_entities. Qed.

Lemma untouched_trans e w0 w1 w2 :
  untouched e w0 w1 -> untouched e w1 w2 -> untouched e w0 w2.
Proof.
  intros (He1 & Hr1 & Hl1 & Hs1) (He2 & Hr2 & Hl2 & Hs2). repeat split.
  - congruence.
  - intros r Hr. rewrite Hr2, Hr1; [done..|]. by rewrite He1.
  - congruence.
  - by etrans.
Qed.

(** No listener of [name] is one of [e] when [e] has no subscription of
    the key. *)
Lemma listeners_others name cb e l :
  Forall (fun s => s_name s = name -> s_cb s = cb) l ->
  count_subs name cb e l = 0 ->
  Forall (fun s => s_scope s <> e) (filter (fun s => s_name s = name) l).
Proof.
  intros Hcb Hz. rewrite <- (listeners_of_count _ _ _ _ Hcb) in Hz.
  by apply (filter_length_zero (fun s => s_scope s = e)) in Hz.
Qed.

Lemma subs_wf_load_cb w id :
  subs_wf w -> Forall (fun s => s_name s = "load:" +:+ id -> s_cb s = CbLoaded) (subs w).
Proof.
  intros Hwf. eapply Forall_impl; [exact Hwf|]. intros s Hs Hn.
  by destruct (sub_wf_load _ _ Hs Hn).
Qed.

Lemma subs_wf_remove_cb w id :
  subs_wf w -> Forall (fun s => s_name s = "remove:" +:+ id -> s_cb s = CbRemoved) (subs w).
Proof.
  intros Hwf. eapply Forall_impl; [exact Hwf|]. intros s Hs Hn.
  by destruct (sub_wf_remove _ _ Hs Hn).
Qed.


(** An emission of [load:<id>] when [e] has no listener of it. *)
Lemma fire_load_unsubscribed e id c w :
  subs_wf w -> unshared w ->
  count_subs ("load:" +:+ id) CbLoaded e (subs w) = 0 ->
  untouched e w (after (fire ("load:" +:+ id) c) w).
Proof.
  intros Hwf Hu Hz. unfold after, fire.
  apply (untouched_fire_loop e w Hu); [|apply untouched_refl].
  eapply listeners_others; [by apply subs_wf_load_cb|done].
Qed.

(** ** The emission of [remove:<id>] *)

Lemma deliver_removed_effect s c w r :
  s_cb s = CbRemoved -> s_once s = true ->
  ra_resource (entities w (s_scope s)) = Some r ->
  exists w',
    deliver s c w = Done w' /\
    entities w' = entities w /\
    (forall r', renders w' r' = if Nat.eqb r' r then mkRender None else renders w r') /\
    log w' = log w ++ [EvCall CbRemoved (s_scope s) (ca_id c); EvDestroy (s_scope s) r] /\
    subs w' = filter (fun s' => sub_is ("load:" +:+ ca_id c) CbLoaded (s_scope s) s' = false)
                (filter (fun s' => s_id s' <> s_id s) (subs w)).
Proof.
  intros Hcb Ho Hr. rewrite deliver_removed by done.
  unfold onContainerAssetRemoved, seq, registry_off, modify.
  cbn [entities set_subs add_log]. rewrite Hr. eexists. split; [reflexivity|].
  simpl. repeat split. by rewrite <- app_assoc.
Qed.

Lemma fire_remove_bound w e cid c r :
  subs_wf w -> unshared w ->
  ra_resource (entities w e) = Some r ->
  count_subs ("remove:" +:+ cid) CbRemoved e (subs w) = 1 ->
  ca_id c = cid ->
  exists w',
    fire ("remove:" +:+ cid) c w = Done w' /\
    entities w' = entities w /\
    renders w' r = mkRender None /\
    events_of e (log w') =
      events_of e (log w) ++ [EvCall CbRemoved e cid; EvDestroy e r] /\
    count_subs ("load:" +:+ cid) CbLoaded e (subs w') = 0 /\
    count_subs ("remove:" +:+ cid) CbRemoved e (subs w') = 0.
Proof.
  intros Hwf Hu Hr Hone <-.
  pose proof (listeners_remove w (ca_id c) Hwf) as HL.
  destruct (fire_through_one ("remove:" +:+ ca_id c) c w e)
    as (l1 & s & l2 & Heq & Hse & H1 & H2 & Hs2 & Hfire).
  { eapply safe_Forall; [exact HL|]. intros s [Hs _]. unfold safe. by rewrite Hs. }
  { rewrite (listeners_of_count _ CbRemoved); [done|by apply subs_wf_remove_cb]. }
  assert (s ∈ filter (fun s => s_name s = "remove:" +:+ ca_id c) (subs w)) as Hsin.
  { rewrite Heq. apply elem_of_app. right. apply list_elem_of_here. }
  rewrite Forall_forall in HL. destruct (HL s Hsin) as [Hcb Honce].
  apply list_elem_of_filter in Hsin as [Hname Hsw].
  set (wa := after (fire_loop l1 c) w) in *.
  assert (untouched e w wa) as Hua.
  { apply untouched_fire_loop; [done..|apply untouched_refl]. }
  pose proof Hua as (Hea & Hra & Hla & Hsa).
  destruct (deliver_removed_effect s c wa r) as (wb & Hd & Heb & Hrb & Hlb & Hsb);
    [done..|by rewrite Hse, Hea|].
  rewrite Hse in Hlb, Hsb.
  rewrite (seq_done _ _ _ _ Hd), (fire_loop_done l2 c wb Hs2) in Hfire.
  set (w' := after (fire_loop l2 c) wb) in *.
  assert (unshared wb) as Hub.
  { eapply unshared_entities; [|exact Hu]. by rewrite Heb. }
  assert (untouched e wb w') as (He' & Hr' & Hl' & Hs').
  { apply untouched_fire_loop; [done..|apply untouched_refl]. }
  exists w'. split; [done|]. split; [congruence|]. split.
  { rewrite Hr' by (by rewrite Heb, Hea). by rewrite Hrb, Nat.eqb_refl. }
  split.
  { rewrite Hl', Hlb. unfold events_of. rewrite filter_app. fold (events_of e (log wa)).
    rewrite Hla. f_equal. rewrite !filter_cons, filter_nil. simpl.
    rewrite Nat.eqb_refl. by repeat case_decide. }
  split.
  - apply Nat.le_0_r. etrans; [by apply count_subs_sublist|].
    rewrite Hsb. by rewrite count_subs_off.
  - apply Nat.le_0_r. etrans; [by apply count_subs_sublist|].
    rewrite Hsb. etrans; [apply count_subs_filter_le|].
    rewrite (count_subs_revoked _ _ _ s (subs w)); [done|done|done| |done].
    apply sub_is_true. done.
Qed.

(** The state a successful bind leaves: the render asset holds the
    meshes, and its listener of [remove:<id>] is subscribed, once. *)
Lemma bound_state_after_patch w e cid c l :
  truthy_id (containerAsset (data (entities w e))) = Some cid ->
  assets w !! cid = Some c -> ca_id c = cid ->
  is_Some (ra_resource (entities w e)) ->
  container_meshes c (renderIndex (data (entities w e))) = Some l ->
  entity_meshes (after (patch e) w) e = Some l /\
  count_subs ("remove:" +:+ cid) CbRemoved e (subs (after (patch e) w)) = 1.
Proof.
  intros Hid Hc <- [r Hr] Hl. unfold after.
  rewrite (patch_found _ _ _ _ Hid Hc), (onContainerAssetAdded_assigns _ _ _ _ _ Hr Hl).
  cbn [final]. split; [by apply entity_meshes_assigned|].
  cbn [subs add_log set_render with_resubscribed]. unfold resubscribed.
  rewrite count_subs_app, count_subs_off, count_subs_single, sub_is_mkSub. done.
Qed.

(** C5. A render asset that is bound, as a successful bind leaves it (it
    holds the meshes, and its one listener of [remove:<id>] is
    subscribed), in a state whose subscriptions are well formed and whose
    render assets share no resource: the emission of [remove:<id>]
    returns, having called the callback of this render asset once and
    [destroy] on its resource once; the render asset still has the
    resource, which no longer holds the meshes; its listeners of
    [load:<id>] and [remove:<id>] are gone; and an emission of [load:<id>]
    after that leaves the render asset untouched, whatever the asset
    emitted. *)
Theorem remove_tears_down_once (w : World) (e : nat) (cid : string)
    (c : ContainerAsset) (l : loc) :
  subs_wf w -> unshared w ->
  entity_meshes w e = Some l ->
  count_subs ("remove:" +:+ cid) CbRemoved e (subs w) = 1 ->
  ca_id c = cid ->
  exists w',
    fire ("remove:" +:+ cid) c w = Done w' /\
    count_events (is_destroy_of e) (log w') =
      count_events (is_destroy_of e) (log w) + 1 /\
    count_events (is_call_of CbRemoved e) (log w') =
      count_events (is_call_of CbRemoved e) (log w) + 1 /\
    ra_resource (entities w' e) = ra_resource (entities w e) /\
    entity_meshes w' e = None /\
    count_subs ("load:" +:+ cid) CbLoaded e (subs w') = 0 /\
    count_subs ("remove:" +:+ cid) CbRemoved e (subs w') = 0 /\
    forall c', untouched e w' (after (fire ("load:" +:+ cid) c') w').
Proof.
  intros Hwf Hu Hm Hone Hc.
  assert (exists r, ra_resource (entities w e) = Some r) as [r Hr].
  { unfold entity_meshes in Hm. destruct (ra_resource _); [eauto|done]. }
  destruct (fire_remove_bound w e cid c r) as (w' & Hf & He & Hrn & Hl & Hlk & Hrk);
    try done.
  exists w'. split; [done|].
  assert (forall p, (forall ev, p ev = true -> event_of e ev = true) ->
            count_events p (log w') =
            count_events p (log w) + count_events p [EvCall CbRemoved e cid; EvDestroy e r])
    as Hcount.
  { intros p Hp. rewrite (count_events_of p e (log w')), (count_events_of p e (log w)) by done.
    by rewrite Hl, count_events_app. }
  split.
  { rewrite (Hcount _ (is_destroy_of_event e)). f_equal.
    unfold count_events. rewrite !filter_cons, filter_nil. simpl.
    rewrite Nat.eqb_refl. by repeat case_decide. }
  split.
  { rewrite (Hcount _ (is_call_of_event CbRemoved e)). f_equal.
    unfold count_events. rewrite !filter_cons, filter_nil. simpl.
    rewrite Nat.eqb_refl. by repeat case_decide. }
  split; [by rewrite He|]. split.
  { unfold entity_meshes. by rewrite He, Hr, Hrn. }
  split; [done|]. split; [done|]. intros c'.
  apply fire_load_unsubscribed; [| |done].
  - pose proof (subs_wf_perform (AEmit ("remove:" +:+ cid) c) w Hwf) as Hwf'.
    cbn [perform] in Hwf'. unfold after in Hwf'. by rewrite Hf in Hwf'.
  - eapply unshared_entities; [exact He|done].
Qed.

(** ** Calling [onContainerAssetAdded] again *)

Lemma subs_onContainerAssetLoaded e c w :
  subs (after (onContainerAssetLoaded e c) w) = subs w.
Proof.
  unfold after, onContainerAssetLoaded.
  destruct (ra_resource (entities w e)) as [r|]; [|done].
  destruct (ca_resource c) as [cr|]; [|done].
  destruct (match cr_renders cr with Some a => _ | None => None end) as [h|]; [|done].
  by destruct (h_resource h).
Qed.

Lemma subs_onContainerAssetAdded e c w :
  subs (after (onContainerAssetAdded e c) w) =
  resubscribed e (ca_id c) (next_sid w) (subs w).
Proof.
  unfold after. rewrite onContainerAssetAdded_eq.
  destruct (ca_resource c); [|done].
  apply (subs_onContainerAssetLoaded e c (with_resubscribed e (ca_id c) w)).
Qed.

Lemma count_subs_filter_other name cb scope (P : Sub -> Prop) `{!forall s, Decision (P s)} l :
  (forall s, sub_is name cb scope s = true -> P s) ->
  count_subs name cb scope (filter P l) = count_subs name cb scope l.
Proof. intros HP. unfold count_subs. by rewrite list_filter_filter_l. Qed.

Lemma count_load_resubscribed e cid n l :
  count_subs ("load:" +:+ cid) CbLoaded e (resubscribed e cid n l) = 1.
Proof.
  unfold resubscribed. rewrite count_subs_app, count_subs_filter_other.
  - rewrite count_subs_app, count_subs_off, !count_subs_single, sub_is_mkSub.
    by rewrite sub_is_other_name by (intros H; symmetry in H; by apply load_remove_names in H).
  - intros s Hs. apply not_true_iff_false. intros Hs'.
    apply sub_is_true in Hs as (_ & Hs & _). apply sub_is_true in Hs' as (_ & Hs' & _).
    congruence.
Qed.

Lemma count_remove_resubscribed e cid n l :
  count_subs ("remove:" +:+ cid) CbRemoved e (resubscribed e cid n l) = 1.
Proof.
  unfold resubscribed.
  by rewrite count_subs_app, count_subs_off, count_subs_single, sub_is_mkSub.
Qed.

Lemma assets_dispatch cb e c w : assets (after (dispatch cb e c) w) = assets w.
Proof.
  by apply (dispatch_preserves (fun w' => assets w' = assets w) (fun _ => True)).
Qed.

Lemma subs_wf_dispatch cb e c w : subs_wf w -> subs_wf (after (dispatch cb e c) w).
Proof.
  apply (dispatch_preserves subs_wf (fun _ => True));
    auto using wf_off, wf_resub_load, wf_resub_remove.
Qed.

Lemma repeat_added_frame e c w n :
  subs_wf w ->
  let w' := repeat_call n (onContainerAssetAdded e c) w in
  subs_wf w' /\ entities w' = entities w /\ assets w' = assets w.
Proof.
  intros Hwf. induction n as [|n (IH1 & IH2 & IH3)]; [done|].
  cbn [repeat_call]. repeat split.
  - by apply (subs_wf_dispatch CbAdded).
  - rewrite <- IH2. apply (entities_dispatch CbAdded).
  - rewrite <- IH3. apply (assets_dispatch CbAdded).
Qed.

Lemma repeat_patch_found e c cid w n :
  subs_wf w ->
  truthy_id (containerAsset (data (entities w e))) = Some cid ->
  assets w !! cid = Some c ->
  repeat_call n (patch e) w = repeat_call n (onContainerAssetAdded e c) w.
Proof.
  intros Hwf Hid Hc. induction n as [|n IH]; [done|].
  cbn [repeat_call]. rewrite IH.
  destruct (repeat_added_frame e c w n Hwf) as (_ & He & Ha).
  unfold after. f_equal.
  apply (patch_found _ _ cid); by rewrite ?He, ?Ha.
Qed.

(** ** The emission of [load:<id>] with one listener of the render asset *)

Lemma loaded_loop_subs c l w :
  Forall (fun s => s_cb s = CbLoaded /\ s_once s = false) l ->
  subs (after (fire_loop l c) w) = subs w.
Proof.
  intros Hl. revert w. induction Hl as [|s l [Hcb Ho] Hl IH]; intros w; [done|].
  cbn [fire_loop].
  assert (subs (after (deliver s c) w) = subs w) as Hd.
  { unfold after. rewrite deliver_loaded by done.
    apply (subs_onContainerAssetLoaded (s_scope s) c (add_log _ w)). }
  apply (after_seq (fun w' => subs w' = subs w)); [done|].
  intros w' Hw'. rewrite IH. unfold after in Hd. by rewrite Hw' in Hd.
Qed.

Lemma onContainerAssetLoaded_entry_resource e c w r rr :
  ra_resource (entities w e) = Some r ->
  entry_resource c (renderIndex (data (entities w e))) = Some rr ->
  onContainerAssetLoaded e c w =
    Done (add_log (EvAssign e r (rr_meshes rr)) (set_render r (mkRender (rr_meshes rr)) w)).
Proof.
  intros Hr Hrr. unfold entry_resource in Hrr.
  destruct (ca_resource c) as [cr|] eqn:Hc; [|done].
  rewrite (onContainerAssetLoaded_entry _ _ _ _ _ Hr Hc).
  destruct (container_entry cr _) as [h|]; [|done]. by rewrite Hrr.
Qed.

Lemma container_meshes_entry c i l :
  container_meshes c i = Some l ->
  exists rr, entry_resource c i = Some rr /\ rr_meshes rr = Some l.
Proof.
  unfold container_meshes, entry_resource, container_entry.
  destruct (ca_resource c) as [cr|]; [|done].
  destruct (cr_renders cr) as [a|]; [|done].
  destruct (js_index a i) as [h|]; [|done].
  destruct (h_resource h) as [rr|]; [|done]. eauto.
Qed.

Lemma entry_resource_loaded c i : is_Some (entry_resource c i) -> loaded c = true.
Proof. unfold entry_resource, loaded. destruct (ca_resource c); [done|by intros [? ?]]. Qed.

Lemma fire_load_entry w e cid c r rr :
  subs_wf w -> unshared w ->
  ra_resource (entities w e) = Some r ->
  count_subs ("load:" +:+ cid) CbLoaded e (subs w) = 1 ->
  container_ok c = true ->
  entry_resource c (renderIndex (data (entities w e))) = Some rr ->
  exists w',
    fire ("load:" +:+ cid) c w = Done w' /\
    entities w' = entities w /\
    subs w' = subs w /\
    entity_meshes w' e = rr_meshes rr /\
    events_of e (log w') =
      events_of e (log w) ++ [EvCall CbLoaded e (ca_id c); EvAssign e r (rr_meshes rr)].
Proof.
  intros Hwf Hu Hr Hone Hok Hl.
  pose proof (listeners_load w cid Hwf) as HL.
  assert (loaded c = true) as Hld
    by (apply (entry_resource_loaded c (renderIndex (data (entities w e)))); eauto).
  destruct (fire_through_one ("load:" +:+ cid) c w e)
    as (l1 & s & l2 & Heq & Hse & H1 & H2 & Hs2 & Hfire).
  { eapply safe_Forall; [exact HL|]. intros s [Hs _]. unfold safe. by rewrite Hs. }
  { rewrite (listeners_of_count _ CbLoaded); [done|by apply subs_wf_load_cb]. }
  assert (s ∈ filter (fun s => s_name s = "load:" +:+ cid) (subs w)) as Hsin.
  { rewrite Heq. apply elem_of_app. right. apply list_elem_of_here. }
  pose proof HL as HL'.
  rewrite Forall_forall in HL'. destruct (HL' s Hsin) as [Hcb Honce].
  set (wa := after (fire_loop l1 c) w) in *.
  assert (untouched e w wa) as (Hea & Hra & Hla & Hsa).
  { apply untouched_fire_loop; [done..|apply untouched_refl]. }
  unfold seq in Hfire.
  rewrite deliver_loaded in Hfire by done. rewrite Hse in Hfire.
  rewrite (onContainerAssetLoaded_entry_resource _ _ _ r rr) in Hfire
    by (cbn [entities add_log]; by rewrite Hea).
  set (wb := add_log (EvAssign e r (rr_meshes rr)) _) in *.
  rewrite (fire_loop_done l2 c wb Hs2) in Hfire.
  set (w' := after (fire_loop l2 c) wb) in *.
  assert (entities wb = entities w) as Heb by (subst wb; simpl; done).
  assert (unshared wb) as Hub by (eapply unshared_entities; [exact Heb|done]).
  assert (untouched e wb w') as (He' & Hr' & Hl' & Hs').
  { apply untouched_fire_loop; [done..|apply untouched_refl]. }
  exists w'. split; [done|]. split; [congruence|]. split.
  { pose proof (loaded_loop_subs c _ w HL) as H.
    unfold after in H. unfold fire in Hfire. by rewrite Hfire in H. }
  split.
  - unfold entity_meshes. rewrite He', Heb, Hr, Hr' by (by rewrite Heb).
    subst wb. simpl. by rewrite Nat.eqb_refl.
  - rewrite Hl'. subst wb. cbn [log add_log set_render].
    rewrite <- app_assoc. cbn [app]. unfold events_of. rewrite filter_app.
    fold (events_of e (log wa)). rewrite Hla. f_equal.
    rewrite !filter_cons, filter_nil. simpl. rewrite Nat.eqb_refl.
    by repeat case_decide.
Qed.

Lemma fire_load_one w e cid c r l :
  subs_wf w -> unshared w ->
  ra_resource (entities w e) = Some r ->
  count_subs ("load:" +:+ cid) CbLoaded e (subs w) = 1 ->
  container_ok c = true ->
  container_meshes c (renderIndex (data (entities w e))) = Some l ->
  exists w',
    fire ("load:" +:+ cid) c w = Done w' /\
    entities w' = entities w /\
    entity_meshes w' e = Some l /\
    events_of e (log w') =
      events_of e (log w) ++ [EvCall CbLoaded e (ca_id c); EvAssign e r (Some l)].
Proof.
  intros Hwf Hu Hr Hone Hok Hl.
  apply container_meshes_entry in Hl as (rr & Hrr & Hm).
  destruct (fire_load_entry w e cid c r rr) as (w' & Hf & He & _ & Hme & Hev); try done.
  rewrite Hm in Hme, Hev. eauto.
Qed.

(** An emission of [load:<id>] makes at most one assignment by a render
    asset for each of its listeners, whatever the asset emitted and whether
    or not the emission is cut short. *)
Lemma log_onContainerAssetLoaded e c w :
  log (after (onContainerAssetLoaded e c) w) = log w \/
  exists r v, log (after (onContainerAssetLoaded e c) w) = log w ++ [EvAssign e r v].
Proof.
  unfold after, onContainerAssetLoaded.
  destruct (ra_resource (entities w e)) as [r|]; [|by left].
  destruct (ca_resource c) as [cr|]; [|by left].
  destruct (match cr_renders cr with Some a => _ | None => None end) as [h|]; [|by left].
  destruct (h_resource h) as [rr|]; [|by left]. right. eauto.
Qed.

Lemma assigns_deliver_loaded e s c w :
  s_cb s = CbLoaded -> s_once s = false ->
  count_events (is_assign_of e) (log (after (deliver s c) w)) <=
  count_events (is_assign_of e) (log w) + length (subs_of e [s]).
Proof.
  intros Hcb Ho. unfold after. rewrite deliver_loaded by done.
  pose proof (log_onContainerAssetLoaded (s_scope s) c
                (add_log (EvCall CbLoaded (s_scope s) (ca_id c)) w)) as H.
  unfold after in H. cbn [log add_log] in H.
  destruct H as [->|(r & v & ->)].
  - rewrite count_events_app, count_events_single. simpl. lia.
  - rewrite !count_events_app, !count_events_single. simpl.
    unfold subs_of. rewrite filter_cons, filter_nil.
    case_decide as He.
    + subst. rewrite Nat.eqb_refl. simpl. lia.
    + apply Nat.eqb_neq in He. rewrite He. simpl. lia.
Qed.

Lemma assigns_loaded_loop e c l w :
  Forall (fun s => s_cb s = CbLoaded /\ s_once s = false) l ->
  count_events (is_assign_of e) (log (after (fire_loop l c) w)) <=
  count_events (is_assign_of e) (log w) + length (subs_of e l).
Proof.
  intros Hl. revert w. induction Hl as [|s l [Hcb Ho] Hl IH]; intros w.
  - unfold after. cbn [fire_loop skip final]. lia.
  - cbn [fire_loop].
    pose proof (assigns_deliver_loaded e s c w Hcb Ho) as Hd.
    assert (length (subs_of e (s :: l)) = length (subs_of e [s]) + length (subs_of e l))
      as Hlen.
    { unfold subs_of. rewrite !filter_cons, filter_nil. case_decide; simpl; lia. }
    apply (after_seq (fun w' => count_events (is_assign_of e) (log w') <=
                                count_events (is_assign_of e) (log w) +
                                length (subs_of e (s :: l)))).
    + lia.
    + intros w' Hw'. unfold after in Hd. rewrite Hw' in Hd. cbn [final] in Hd.
      specialize (IH w'). lia.
Qed.

Lemma fire_load_never_two w e id c :
  subs_wf w ->
  count_subs ("load:" +:+ id) CbLoaded e (subs w) <= 1 ->
  count_events (is_assign_of e) (log (after (fire ("load:" +:+ id) c) w)) <=
  count_events (is_assign_of e) (log w) + 1.
Proof.
  intros Hwf Hone. unfold after, fire.
  pose proof (assigns_loaded_loop e c _ w (listeners_load w id Hwf)) as H.
  unfold after in H.
  rewrite (listeners_of_count _ CbLoaded) in H by (by apply subs_wf_load_cb). lia.
Qed.

Lemma count_two_events p e r cid v :
  count_events p [EvCall CbLoaded e cid; EvAssign e r v] =
  (if p (EvCall CbLoaded e cid) then 1 else 0) + (if p (EvAssign e r v) then 1 else 0).
Proof.
  change [EvCall CbLoaded e cid; EvAssign e r v]
    with ([EvCall CbLoaded e cid] ++ [EvAssign e r v]).
  by rewrite count_events_app, !count_events_single.
Qed.

(** One emission of [load:<id>] with a sound container, for a render asset
    with its one listener: one call, one assignment, the subscriptions as
    they were. *)
Lemma fire_load_counts w e cid c r :
  subs_wf w -> unshared w ->
  ra_resource (entities w e) = Some r ->
  count_subs ("load:" +:+ cid) CbLoaded e (subs w) = 1 ->
  container_ok c = true ->
  is_Some (entry_resource c (renderIndex (data (entities w e)))) ->
  exists w',
    fire ("load:" +:+ cid) c w = Done w' /\
    entities w' = entities w /\ subs w' = subs w /\
    count_events (is_call_of CbLoaded e) (log w') =
      count_events (is_call_of CbLoaded e) (log w) + 1 /\
    count_events (is_assign_of e) (log w') =
      count_events (is_assign_of e) (log w) + 1.
Proof.
  intros Hwf Hu Hr Hone Hok [rr Hrr].
  destruct (fire_load_entry w e cid c r rr) as (w' & Hf & He & Hs & _ & Hev); try done.
  exists w'. split; [done|]. split; [done|]. split; [done|].
  assert (forall p, (forall ev, p ev = true -> event_of e ev = true) ->
            count_events p (log w') =
            count_events p (log w) +
            count_events p [EvCall CbLoaded e (ca_id c); EvAssign e r (rr_meshes rr)])
    as Hcount.
  { intros p Hp. rewrite (count_events_of p e (log w')), (count_events_of p e (log w)) by done.
    by rewrite Hev, count_events_app. }
  split.
  - rewrite (Hcount _ (is_call_of_event CbLoaded e)), count_two_events. simpl.
    rewrite Nat.eqb_refl. simpl. lia.
  - rewrite (Hcount _ (is_assign_of_event e)), count_two_events. simpl.
    rewrite Nat.eqb_refl. simpl. lia.
Qed.

Lemma fire_all_load_counts e cid r i cs w :
  subs_wf w -> unshared w ->
  ra_resource (entities w e) = Some r ->
  renderIndex (data (entities w e)) = i ->
  count_subs ("load:" +:+ cid) CbLoaded e (subs w) = 1 ->
  Forall (fun c' => container_ok c' = true /\ is_Some (entry_resource c' i)) cs ->
  exists w',
    fire_all ("load:" +:+ cid) cs w = Done w' /\
    entities w' = entities w /\ subs w' = subs w /\
    count_events (is_call_of CbLoaded e) (log w') =
      count_events (is_call_of CbLoaded e) (log w) + length cs /\
    count_events (is_assign_of e) (log w') =
      count_events (is_assign_of e) (log w) + length cs.
Proof.
  intros Hwf Hu Hr Hi Hone Hcs. revert w Hwf Hu Hr Hi Hone.
  induction Hcs as [|c cs [Hok Hent] Hcs IH]; intros w Hwf Hu Hr Hi Hone.
  - exists w. cbn [fire_all skip length]. repeat split; lia.
  - destruct (fire_load_counts w e cid c r) as (w1 & Hf & He & Hs & Hc1 & Ha1);
      try done; [by rewrite Hi|].
    destruct (IH w1) as (w' & Hf' & He' & Hs' & Hc' & Ha').
    + unfold subs_wf. by rewrite Hs.
    + by apply (unshared_entities w).
    + by rewrite He.
    + by rewrite He.
    + by rewrite Hs.
    + exists w'. cbn [fire_all length]. rewrite (seq_done _ _ _ _ Hf).
      split; [done|]. split; [congruence|]. split; [congruence|]. split; lia.
Qed.

(** C4, as the code has it. In every reachable state there is at most one
    subscription for each key of [load:] and of [remove:], and an emission
    of [load:<id>] makes at most one mesh assignment by a render asset,
    never two, whatever the asset emitted.  After any number (at least
    one) of calls of [onContainerAssetAdded] for the same render asset and
    container (calls of [patch] with the container in the registry are
    such calls) there is exactly one subscription of each key for the
    pair; and then, after any number of emissions of [load:<id>], the
    next one again makes at most one assignment, and exactly one call of
    the callback and one assignment when the render asset has a resource
    and the container emitted is sound: every present entry has a
    resource, and the entry at the render asset's [renderIndex] is
    present. *)
Theorem one_listener_per_pair (w : World) (e : nat) (c : ContainerAsset) (n : nat) :
  reachable w ->
  one_per_key w /\
  (forall id c',
     count_events (is_assign_of e) (log (after (fire ("load:" +:+ id) c') w)) <=
     count_events (is_assign_of e) (log w) + 1) /\
  (forall cid, truthy_id (containerAsset (data (entities w e))) = Some cid ->
               assets w !! cid = Some c ->
               repeat_call (S n) (patch e) w =
               repeat_call (S n) (onContainerAssetAdded e c) w) /\
  let w' := repeat_call (S n) (onContainerAssetAdded e c) w in
  count_subs ("load:" +:+ ca_id c) CbLoaded e (subs w') = 1 /\
  count_subs ("remove:" +:+ ca_id c) CbRemoved e (subs w') = 1 /\
  forall cs,
    is_Some (ra_resource (entities w e)) ->
    Forall (fun c' => container_ok c' = true /\
                      is_Some (entry_resource c' (renderIndex (data (entities w e))))) cs ->
    exists wk,
      fire_all ("load:" +:+ ca_id c) cs w' = Done wk /\
      subs wk = subs w' /\
      count_events (is_assign_of e) (log wk) =
        count_events (is_assign_of e) (log w') + length cs /\
      (forall c',
         count_events (is_assign_of e) (log (after (fire ("load:" +:+ ca_id c) c') wk)) <=
         count_events (is_assign_of e) (log wk) + 1) /\
      (forall c',
         container_ok c' = true ->
         is_Some (entry_resource c' (renderIndex (data (entities w e)))) ->
         exists w'',
           fire ("load:" +:+ ca_id c) c' wk = Done w'' /\
           count_events (is_call_of CbLoaded e) (log w'') =
             count_events (is_call_of CbLoaded e) (log wk) + 1 /\
           count_events (is_assign_of e) (log w'') =
             count_events (is_assign_of e) (log wk) + 1).
Proof.
  intros Hw.
  pose proof (one_per_key_reachable w Hw) as Hone.
  pose proof (subs_wf_reachable w Hw) as Hwf.
  pose proof (unshared_reachable w Hw) as Hu.
  split; [done|]. split.
  { intros id c'. apply fire_load_never_two; [done|]. by apply Hone. }
  split; [intros cid Hid Hc; by apply (repeat_patch_found e c cid)|].
  intros w'.
  destruct (repeat_added_frame e c w n Hwf) as (Hwfn & Hen & Han).
  set (wn := repeat_call n (onContainerAssetAdded e c) w) in *.
  assert (w' = after (onContainerAssetAdded e c) wn) as Hw' by done.
  assert (count_subs ("load:" +:+ ca_id c) CbLoaded e (subs w') = 1) as Hlk.
  { rewrite Hw', subs_onContainerAssetAdded. apply count_load_resubscribed. }
  split; [done|]. split.
  { rewrite Hw', subs_onContainerAssetAdded. apply count_remove_resubscribed. }
  intros cs [r Hr] Hcs.
  destruct (repeat_added_frame e c w (S n) Hwf) as (Hwf' & He' & _).
  fold w' in Hwf', He'.
  assert (unshared w') as Hu' by (eapply unshared_entities; [exact He'|done]).
  destruct (fire_all_load_counts e (ca_id c) r (renderIndex (data (entities w e))) cs w')
    as (wk & Hf & Hek & Hsk & _ & Hak); try done; rewrite ?He'; try done.
  assert (subs_wf wk) as Hwfk by (unfold subs_wf; by rewrite Hsk).
  exists wk. split; [done|]. split; [done|]. split; [done|]. split.
  - intros c'. apply fire_load_never_two; [done|]. rewrite Hsk, Hlk. lia.
  - intros c' Hok Hent.
    destruct (fire_load_counts wk e (ca_id c) c' r) as (w'' & Hf' & _ & _ & Hc'' & Ha'');
      try done; rewrite ?Hek, ?He', ?Hsk; try done.
    + by apply (unshared_entities w').
    + eauto.
Qed.

(** C4 does not hold as stated: in a reachable state, after two calls of
    [patch] for render asset 1 and its container, render asset 1 has its
    one listener of [load:C1] and a resource, and the container emitted
    has the entry at its [renderIndex] with a mesh list; the emission of
    [load:C1] makes no assignment by render asset 1, not one: the
    listener of render asset 0, subscribed before, throws on its own
    entry and ends the emission. *)
Lemma load_emission_cut_short :
  reachable ex_fanout /\
  count_subs ("load:" +:+ "C1") CbLoaded 1 (subs ex_fanout) = 1 /\
  ra_resource (entities ex_fanout 1) = Some 1 /\
  container_meshes ex_mixed (renderIndex (data (entities ex_fanout 1))) = Some 43 /\
  returns (fire ("load:" +:+ "C1") ex_mixed ex_fanout) = false /\
  count_events (is_assign_of 1) (log (after (fire ("load:" +:+ "C1") ex_mixed) ex_fanout)) =
    count_events (is_assign_of 1) (log ex_fanout) /\
  count_events (is_assign_of 1) (log (after (fire ("load:" +:+ "C1") ex_mixed) ex_fanout)) <>
    count_events (is_assign_of 1) (log ex_fanout) + 1.
Proof.
  split.
  { apply (reach_step _ (ABind 1)), (reach_step _ (ABind 1)), (reach_step _ (ABind 0)).
    apply reach_init. repeat split.
    intros e1 e2 r H1 H2. cbn [set_asset ex_world_indexed entities ra_resource] in *.
    congruence. }
  repeat split; try (vm_compute; reflexivity).
  vm_compute. discriminate.
Qed.

(** ** Calling [patch] again while the container is missing *)








(** ** A render asset without a container reference *)

Lemma unbound_state_untouched e w w' :
  untouched e w w' -> unbound_state e w -> unbound_state e w'.
Proof.
  intros (He & Hr & Hl & Hs) (Hs0 & Hm0 & Hl0). repeat split.
  - rewrite Hs0 in Hs. by apply sublist_nil_r in Hs.
  - unfold entity_meshes in *. rewrite He.
    destruct (ra_resource (entities w e)) as [r|] eqn:Hre; [|done].
    by rewrite (Hr r).
  - congruence.
Qed.

Lemma unbound_state_reachable e w :
  reachable w ->
  truthy_id (containerAsset (data (entities w e))) = None ->
  unbound_state e w.
Proof.
  induction 1 as [w (Hs & Hl & Hr & Hu)|w a Hw IH].
  - intros _. unfold unbound_state, entity_meshes. rewrite Hs, Hl.
    repeat split. destruct (ra_resource (entities w e)); [|done]. by rewrite Hr.
  - rewrite entities_perform. intros Hid. specialize (IH Hid).
    pose proof (unshared_reachable w Hw) as Hu.
    apply (unbound_state_untouched e w); [|done].
    destruct a as [e'|name c|id c]; cbn [perform].
    + destruct (decide (e' = e)) as [->|Hne].
      * unfold after, patch. rewrite Hid. apply untouched_refl.
      * apply untouched_patch; [done..|apply untouched_refl].
    + unfold after, fire. apply untouched_fire_loop; [done| |apply untouched_refl].
      destruct IH as (Hs & _). apply Forall_forall. intros s Hin Hse.
      apply list_elem_of_filter in Hin as [_ Hin].
      assert (s ∈ subs_of e (subs w)) as Hin' by (by apply list_elem_of_filter).
      rewrite Hs in Hin'. by apply not_elem_of_nil in Hin'.
    + by destruct c.
Qed.

(** C8. When the render asset has no container reference ([undefined], or
    a falsy identifier), [patch] returns at its first test and leaves the
    state as it was: no subscription, no load request, no assignment; so
    does any number of calls; and in every reachable state the render asset
    is as [open] left it: nothing subscribed on its behalf, no meshes, no
    callback called for it. *)
Theorem patch_without_container_noop (e : nat) (w : World) :
  truthy_id (containerAsset (data (entities w e))) = None ->
  patch e w = Done w /\
  (forall n, repeat_call n (patch e) w = w) /\
  (reachable w -> unbound_state e w).
Proof.
  intros Hid.
  assert (patch e w = Done w) as Hp by (unfold patch; by rewrite Hid).
  split; [done|]. split.
  - induction n as [|n IH]; [done|].
    simpl. rewrite IH. unfold after. by rewrite Hp.
  - intros Hw. by apply unbound_state_reachable.
Qed.

(** ** The properties at the example states *)

Lemma ex_world_initial : initial ex_world.
Proof. repeat split. intros e1 e2 r H1 H2. simpl in *. congruence. Qed.

Lemma ex_world_loaded_initial : initial ex_world_loaded.
Proof. repeat split. intros e1 e2 r H1 H2. simpl in *. congruence. Qed.

Lemma ex_world_unbound_initial : initial ex_world_unbound.
Proof. repeat split. intros e1 e2 r H1 H2. simpl in *. congruence. Qed.

Lemma ex_bound_reachable : reachable ex_bound.
Proof. apply (reach_step ex_world_loaded (ABind 3)), reach_init, ex_world_loaded_initial. Qed.

Lemma patch_without_container_noop_witness :
  truthy_id (containerAsset (data (entities ex_world_unbound 3))) = None /\
  patch 3 ex_world_unbound = Done ex_world_unbound /\
  (forall n, repeat_call n (patch 3) ex_world_unbound = ex_world_unbound) /\
  (reachable ex_world_unbound -> unbound_state 3 ex_world_unbound).
Proof.
  split; [reflexivity|].
  apply (patch_without_container_noop 3 ex_world_unbound). reflexivity.
Defined.

Lemma deferred_bind_same_as_synchronous_witness :
  subs_wf ex_world /\
  assets ex_world !! "C1" = None /\
  exists w_async w_sync,
    (patch 3 ;;; fire ("add:" +:+ "C1") ex_unloaded ;;; fire ("load:" +:+ "C1") ex_loaded)
      ex_world = Done w_async /\
    patch 3 (set_asset "C1" (Some ex_loaded) ex_world) = Done w_sync /\
    entity_meshes w_async 3 = entity_meshes w_sync 3 /\
    entity_meshes w_async 3 = Some 42.
Proof.
  split; [constructor|]. split; [reflexivity|].
  destruct (deferred_bind_same_as_synchronous ex_world 3 "C1" ex_unloaded ex_loaded 42)
    as (w_sync & Hs & _ & _ & Ha).
  - constructor.
  - reflexivity.
  - reflexivity.
  - simpl. eauto.
  - reflexivity.
  - reflexivity.
  - reflexivity.
  - reflexivity.
  - destruct (Ha eq_refl) as (w_async & Hf & He & Hm).
    exists w_async, w_sync. repeat split; assumption.
Defined.

Lemma meshes_held_iff_last_assignment_witness :
  reachable ex_bound /\
  entity_meshes ex_bound 3 = Some 42 /\
  last_assigned (log ex_bound) 3 42.
Proof.
  split; [apply ex_bound_reachable|]. split; [reflexivity|].
  apply (meshes_held_iff_last_assignment ex_bound 3 ex_bound_reachable). reflexivity.
Defined.

Lemma remove_tears_down_once_witness :
  entity_meshes ex_bound 3 = Some 42 /\
  count_subs ("remove:" +:+ "C1") CbRemoved 3 (subs ex_bound) = 1 /\
  exists w',
    fire ("remove:" +:+ "C1") ex_loaded ex_bound = Done w' /\
    count_events (is_destroy_of 3) (log w') =
      count_events (is_destroy_of 3) (log ex_bound) + 1 /\
    count_events (is_call_of CbRemoved 3) (log w') =
      count_events (is_call_of CbRemoved 3) (log ex_bound) + 1 /\
    ra_resource (entities w' 3) = ra_resource (entities ex_bound 3) /\
    entity_meshes w' 3 = None /\
    count_subs ("load:" +:+ "C1") CbLoaded 3 (subs w') = 0 /\
    count_subs ("remove:" +:+ "C1") CbRemoved 3 (subs w') = 0 /\
    forall c', untouched 3 w' (after (fire ("load:" +:+ "C1") c') w').
Proof.
  split; [reflexivity|]. split; [reflexivity|].
  apply (remove_tears_down_once ex_bound 3 "C1" ex_loaded 42).
  - apply subs_wf_reachable, ex_bound_reachable.
  - apply unshared_reachable, ex_bound_reachable.
  - reflexivity.
  - reflexivity.
  - reflexivity.
Defined.

Lemma one_listener_per_pair_witness :
  reachable ex_world_loaded /\
  let w' := repeat_call 2 (onContainerAssetAdded 3 ex_loaded) ex_world_loaded in
  count_subs ("load:" +:+ "C1") CbLoaded 3 (subs w') = 1 /\
  exists wk w'',
    fire_all ("load:" +:+ "C1") [ex_loaded] w' = Done wk /\
    count_events (is_assign_of 3) (log wk) = count_events (is_assign_of 3) (log w') + 1 /\
    fire ("load:" +:+ "C1") ex_reloaded wk = Done w'' /\
    count_events (is_assign_of 3) (log w'') = count_events (is_assign_of 3) (log wk) + 1.
Proof.
  split; [apply reach_init, ex_world_loaded_initial|].
  destruct (one_listener_per_pair ex_world_loaded 3 ex_loaded 1
              (reach_init _ ex_world_loaded_initial))
    as (_ & _ & _ & Hlk & _ & Hcs).
  split; [exact Hlk|].
  destruct (Hcs [ex_loaded]) as (wk & Hf & _ & Ha & _ & Hnext).
  - exists 3. reflexivity.
  - repeat constructor. exists (mkRenderResource (Some 42)). reflexivity.
  - destruct (Hnext ex_reloaded) as (w'' & Hf' & _ & Ha').
    + reflexivity.
    + exists (mkRenderResource (Some 43)). reflexivity.
    + exists wk, w''. repeat split; assumption.
Defined.


(** * Further properties of the handler *)

(** ** When [patch] throws, and what it leaves *)

Lemma onContainerAssetAdded_throws e c w :
  returns (onContainerAssetAdded e c w) = false <->
  exists r cr h,
    ra_resource (entities w e) = Some r /\ ca_resource c = Some cr /\
    container_entry cr (renderIndex (data (entities w e))) = Some h /\
    h_resource h = None.
Proof.
  rewrite onContainerAssetAdded_eq.
  destruct (ca_resource c) as [cr|] eqn:Hc.
  - destruct (ra_resource (entities w e)) as [r|] eqn:Hr.
    + rewrite (onContainerAssetLoaded_entry e c _ r cr) by done.
      cbn [entities with_resubscribed].
      destruct (container_entry cr _) as [h|] eqn:Hh.
      * destruct (h_resource h) as [rr|] eqn:Hrr; simpl.
        -- split; [done|]. intros (? & ? & ? & ? & ? & ? & ?); simplify_eq.
        -- split; [|done]. intros _. exists r, cr, h. by repeat split.
      * simpl. split; [done|]. intros (? & ? & ? & ? & ? & ? & ?); simplify_eq.
    + unfold onContainerAssetLoaded. cbn [entities with_resubscribed]. rewrite Hr.
      simpl. split; [done|]. intros (? & ? & ? & ? & ? & ? & ?); simplify_eq.
  - simpl. split; [done|]. intros (? & ? & ? & ? & ? & ? & ?); simplify_eq.
Qed.

(** X1. [patch] throws in exactly one situation: the render asset refers
    to a container that is in the registry and loaded, the render asset has
    a resource, and the entry at its [renderIndex] is present without a
    resource.  In every other case (no reference, container missing or not
    loaded, no resource, entry absent or with a resource) it returns. *)
Theorem patch_throws_iff (e : nat) (w : World) :
  returns (patch e w) = false <->
  exists id c r cr h,
    truthy_id (containerAsset (data (entities w e))) = Some id /\
    assets w !! id = Some c /\
    ra_resource (entities w e) = Some r /\
    ca_resource c = Some cr /\
    container_entry cr (renderIndex (data (entities w e))) = Some h /\
    h_resource h = None.
Proof.
  unfold patch.
  destruct (truthy_id _) as [id|] eqn:Hid.
  - destruct (assets w !! id) as [c|] eqn:Hc.
    + rewrite onContainerAssetAdded_throws. split.
      * intros (r & cr & h & H). exists id, c, r, cr, h. tauto.
      * intros (id' & c' & r & cr & h & [= <-] & Hc' & H).
        rewrite Hc in Hc'. injection Hc' as <-. exists r, cr, h. tauto.
    + simpl. split; [done|]. intros (? & ? & ? & ? & ? & ? & ? & _); simplify_eq.
  - simpl. split; [done|]. intros (? & ? & ? & ? & ? & ? & _); simplify_eq.
Qed.

Lemma subs_wf_added e c w : subs_wf w -> subs_wf (after (onContainerAssetAdded e c) w).
Proof. apply (subs_wf_dispatch CbAdded). Qed.

Lemma entities_added e c w : entities (after (onContainerAssetAdded e c) w) = entities w.
Proof. apply (entities_dispatch CbAdded). Qed.

(** X2. [patch] is not atomic: when it throws on an entry without a
    resource, the four registry calls made before the read have taken
    effect.  The state it leaves has exactly one [load:] and one [remove:]
    listener of the render asset for the container, no Render object and
    no trace entry changed; and the next emission of [load:<id>] with a
    container whose entry is sound binds the render asset. *)
Theorem patch_throw_leaves_listeners (e : nat) (w : World) (id : string)
    (c : ContainerAsset) (r : nat) (cr : ContainerResource) (h : RenderHandle) :
  truthy_id (containerAsset (data (entities w e))) = Some id ->
  assets w !! id = Some c ->
  ra_resource (entities w e) = Some r ->
  ca_resource c = Some cr ->
  container_entry cr (renderIndex (data (entities w e))) = Some h ->
  h_resource h = None ->
  exists w',
    patch e w = Throw w' /\
    count_subs ("load:" +:+ ca_id c) CbLoaded e (subs w') = 1 /\
    count_subs ("remove:" +:+ ca_id c) CbRemoved e (subs w') = 1 /\
    renders w' = renders w /\ log w' = log w /\
    (subs_wf w -> unshared w ->
     forall c' l,
       container_ok c' = true ->
       container_meshes c' (renderIndex (data (entities w e))) = Some l ->
       exists w'',
         fire ("load:" +:+ ca_id c) c' w' = Done w'' /\
         entity_meshes w'' e = Some l).
Proof.
  intros Hid Hc Hr Hcr Hh Hnone.
  assert (patch e w = Throw (with_resubscribed e (ca_id c) w)) as Hp.
  { rewrite (patch_found _ _ _ _ Hid Hc), onContainerAssetAdded_eq, Hcr.
    rewrite (onContainerAssetLoaded_entry e c _ r cr) by done.
    cbn [entities with_resubscribed]. by rewrite Hh, Hnone. }
  exists (with_resubscribed e (ca_id c) w). split; [done|].
  cbn [subs with_resubscribed renders log].
  split; [apply count_load_resubscribed|]. split; [apply count_remove_resubscribed|].
  split; [done|]. split; [done|].
  intros Hwf Hu c' l Hok Hl.
  assert (with_resubscribed e (ca_id c) w = after (onContainerAssetAdded e c) w) as Hw'.
  { unfold after. rewrite <- (patch_found _ _ _ _ Hid Hc), Hp. done. }
  destruct (fire_load_one (with_resubscribed e (ca_id c) w) e (ca_id c) c' r l)
    as (w'' & Hf & _ & Hm & _); try done.
  - rewrite Hw'. by apply subs_wf_added.
  - apply count_load_resubscribed.
  - eauto.
Qed.

Lemma patch_throw_leaves_listeners_witness :
  assets ex_world_hollow !! "C1" = Some ex_hollow /\
  exists w',
    patch 3 ex_world_hollow = Throw w' /\
    count_subs ("load:" +:+ ca_id ex_hollow) CbLoaded 3 (subs w') = 1 /\
    count_subs ("remove:" +:+ ca_id ex_hollow) CbRemoved 3 (subs w') = 1 /\
    renders w' = renders ex_world_hollow /\ log w' = log ex_world_hollow /\
    (subs_wf ex_world_hollow -> unshared ex_world_hollow ->
     forall c' l,
       container_ok c' = true ->
       container_meshes c' (renderIndex (data (entities ex_world_hollow 3))) = Some l ->
       exists w'',
         fire ("load:" +:+ ca_id ex_hollow) c' w' = Done w'' /\
         entity_meshes w'' 3 = Some l).
Proof.
  split; [reflexivity|].
  apply (patch_throw_leaves_listeners 3 ex_world_hollow "C1" ex_hollow 3
           (mkContainerResource (Some [Some (mkRenderHandle None)]))
           (mkRenderHandle None)); reflexivity.
Defined.

(** ** What the binder never writes *)

Lemma frame_obligations_hold w r :
  (forall e, ra_resource (entities w e) <> Some r) ->
  forall w0 e0 r0 v ev,
    (assets w0 = assets w /\ entities w0 = entities w /\ renders w0 r = renders w r) ->
    ra_resource (entities w0 e0) = Some r0 ->
    let w1 := add_log ev (set_render r0 v w0) in
    assets w1 = assets w /\ entities w1 = entities w /\ renders w1 r = renders w r.
Proof.
  intros Hr w0 e0 r0 v ev (Ha & He & Hrr) Hr0. repeat split; try done.
  simpl. destruct (Nat.eqb r r0) eqn:Heq; [|done].
  apply Nat.eqb_eq in Heq as ->. rewrite He in Hr0. by destruct (Hr e0).
Qed.

(** X3. A call of [patch] and an emission of an event never write the
    registry's asset table, nor a render asset (its [data], the reference
    to its resource), nor a Render object that no render asset wraps: they
    write subscriptions, the [meshes] of wrapped Render objects, and
    nothing else. *)
Theorem binder_frame (w : World) (r : nat) :
  (forall e, ra_resource (entities w e) <> Some r) ->
  (forall e,
     assets (after (patch e) w) = assets w /\
     entities (after (patch e) w) = entities w /\
     renders (after (patch e) w) r = renders w r) /\
  (forall name c,
     assets (after (fire name c) w) = assets w /\
     entities (after (fire name c) w) = entities w /\
     renders (after (fire name c) w) r = renders w r).
Proof.
  intros Hr. split.
  - intros e.
    apply (patch_preserves
             (fun w' => assets w' = assets w /\ entities w' = entities w /\
                        renders w' r = renders w r) (fun _ => True)); try done.
    + intros e0 r0 l w0 _ Hr0 H. by apply (frame_obligations_hold w r Hr w0 e0).
  - intros name c.
    apply (fire_preserves
             (fun w' => assets w' = assets w /\ entities w' = entities w /\
                        renders w' r = renders w r) (fun _ => True)); try done.
    + intros e0 r0 l w0 _ Hr0 H. by apply (frame_obligations_hold w r Hr w0 e0).
    + intros e0 r0 w0 _ Hr0 H. by apply (frame_obligations_hold w r Hr w0 e0).
    + intros. by apply Forall_forall.
Qed.

(** ** The emission of [add:<id>] *)

Lemma loads_onContainerAssetLoaded e c w :
  count_events is_load (log (after (onContainerAssetLoaded e c) w)) =
  count_events is_load (log w).
Proof.
  unfold after, onContainerAssetLoaded.
  destruct (ra_resource (entities w e)) as [r|]; [|done].
  destruct (ca_resource c) as [cr|]; [|done].
  destruct (match cr_renders cr with Some a => _ | None => None end) as [h|]; [|done].
  destruct (h_resource h); [|done].
  cbn [final log add_log set_render].
  rewrite count_events_app, count_events_single. simpl. lia.
Qed.

Lemma loads_onContainerAssetAdded e c w :
  count_events is_load (log (after (onContainerAssetAdded e c) w)) =
  count_events is_load (log w) + (if loaded c then 0 else 1).
Proof.
  unfold after, loaded. rewrite onContainerAssetAdded_eq.
  destruct (ca_resource c).
  - pose proof (loads_onContainerAssetLoaded e c (with_resubscribed e (ca_id c) w)) as H.
    unfold after in H. rewrite H. simpl. lia.
  - cbn [registry_load modify final log add_log with_resubscribed].
    by rewrite count_events_app, count_events_single.
Qed.

Lemma added_loop_loads c l w :
  container_ok c = true ->
  Forall (fun s => s_cb s = CbAdded /\ s_once s = true) l ->
  count_events is_load (log (after (fire_loop l c) w)) =
  count_events is_load (log w) + (if loaded c then 0 else length l).
Proof.
  intros Hok Hl. revert w. induction Hl as [|s l [Hcb Ho] Hl IH]; intros w.
  - unfold after. cbn [fire_loop skip final length]. destruct (loaded c); lia.
  - unfold after. cbn [fire_loop].
    assert (safe c s) as Hs by (unfold safe; by rewrite Hcb).
    rewrite (seq_done _ _ _ _ (returns_done _ _ (deliver_returns s c w Hs))).
    fold (after (fire_loop l c) (after (deliver s c) w)). rewrite IH.
    unfold after at 1. rewrite deliver_added by done.
    pose proof (loads_onContainerAssetAdded (s_scope s) c) as Hd.
    unfold after in Hd. rewrite Hd.
    cbn [log add_log set_subs length]. rewrite count_events_app, count_events_single.
    simpl. destruct (loaded c); lia.
Qed.

Lemma listeners_add_safe w cid c :
  subs_wf w -> container_ok c = true -> Forall (safe c) (listeners ("add:" +:+ cid) w).
Proof.
  intros Hwf Hok. eapply safe_Forall; [by apply listeners_add|].
  intros s [Hs _]. unfold safe. by rewrite Hs.
Qed.

(** X4. An emission of [add:<id>] asks the registry to load the container
    once for every listener of the event when the container arrives not
    loaded, and never when it arrives loaded: each call of
    [onContainerAssetAdded] takes one of the two branches of its last
    test. *)
Theorem add_emission_load_requests (w : World) (cid : string) (c : ContainerAsset) :
  subs_wf w ->
  container_ok c = true ->
  exists w',
    fire ("add:" +:+ cid) c w = Done w' /\
    count_events is_load (log w') =
      count_events is_load (log w) +
      (if loaded c then 0 else length (listeners ("add:" +:+ cid) w)).
Proof.
  intros Hwf Hok.
  exists (after (fire ("add:" +:+ cid) c) w). split.
  - unfold after, fire. apply (fire_loop_done _ c w). by apply listeners_add_safe.
  - apply added_loop_loads; [done|]. by apply listeners_add.
Qed.

Lemma add_emission_load_requests_witness :
  subs_wf (repeat_call 2 (patch 3) ex_world) /\
  exists w',
    fire ("add:" +:+ "C1") ex_unloaded (repeat_call 2 (patch 3) ex_world) = Done w' /\
    count_events is_load (log w') =
      count_events is_load (log (repeat_call 2 (patch 3) ex_world)) +
      (if loaded ex_unloaded then 0
       else length (listeners ("add:" +:+ "C1") (repeat_call 2 (patch 3) ex_world))).
Proof.
  assert (subs_wf (repeat_call 2 (patch 3) ex_world)) as Hwf.
  { apply (subs_wf_perform (ABind 3)), (subs_wf_perform (ABind 3)). constructor. }
  split; [exact Hwf|].
  apply (add_emission_load_requests (repeat_call 2 (patch 3) ex_world) "C1" ex_unloaded).
  - exact Hwf.
  - reflexivity.
Defined.

(** X5. The fast path: [patch] with the container missing from the
    registry, then the emission of [add:<id>] with the container already
    loaded, every present entry of it having a resource, binds the render
    asset in that emission ([meshes] is the reference of the entry's list)
    and no load is requested. *)
Theorem add_emission_loaded_binds (w : World) (e : nat) (cid : string)
    (c : ContainerAsset) (l : loc) :
  subs_wf w ->
  truthy_id (containerAsset (data (entities w e))) = Some cid ->
  assets w !! cid = None ->
  is_Some (ra_resource (entities w e)) ->
  container_ok c = true ->
  container_meshes c (renderIndex (data (entities w e))) = Some l ->
  exists w',
    (patch e ;;; fire ("add:" +:+ cid) c) w = Done w' /\
    entity_meshes w' e = Some l /\
    count_events is_load (log w') = count_events is_load (log w).
Proof.
  intros Hwf Hid Hnone [r Hr] Hok Hl.
  rewrite (seq_done _ _ w _ (patch_not_found _ _ _ Hid Hnone)).
  cbn [registry_once subscribe].
  set (w1 := mkWorld _ _ _ _ _ _).
  assert (subs_wf w1) as Hwf1.
  { pose proof (subs_wf_perform (ABind e) w Hwf) as H. cbn [perform] in H.
    unfold after in H. by rewrite (patch_not_found _ _ _ Hid Hnone) in H. }
  assert (loaded c = true) as Hld.
  { unfold loaded. by destruct (container_meshes_loaded _ _ _ Hl) as [? ->]. }
  pose proof (added_loop_loads c (listeners ("add:" +:+ cid) w1) w1 Hok
                (listeners_add w1 cid Hwf1)) as Hloads.
  rewrite Hld, Nat.add_0_r in Hloads.
  assert (fire ("add:" +:+ cid) c w1 =
          Done (after (fire_loop (listeners ("add:" +:+ cid) w1) c) w1)) as Hret.
  { unfold fire. apply (fire_loop_done _ c w1). by apply listeners_add_safe. }
  rewrite Hret. eexists. split; [reflexivity|]. split; [|exact Hloads].
  (* the last listener is the one [patch] has just subscribed *)
  pose proof Hret as Hlast.
  rewrite (fire_last _ _ _ (listeners ("add:" +:+ cid) w)
             (mkSub (next_sid w) ("add:" +:+ cid) CbAdded e true)) in Hlast.
  - rewrite deliver_added in Hlast by done. cbn [s_scope s_id] in Hlast.
    rewrite (onContainerAssetAdded_assigns _ _ _ r l) in Hlast.
    + injection Hlast as Hlast. rewrite <- Hlast. apply entity_meshes_assigned.
      cbn [entities with_resubscribed add_log set_subs]. by rewrite entities_fire_loop.
    + cbn [entities add_log set_subs]. by rewrite entities_fire_loop.
    + cbn [entities add_log set_subs]. by rewrite entities_fire_loop.
  - unfold listeners. subst w1. cbn [subs]. by rewrite filter_app, filter_single_true.
  - by apply listeners_add_safe.
Qed.

Lemma add_emission_loaded_binds_witness :
  assets ex_world !! "C1" = None /\
  container_meshes ex_loaded (renderIndex (data (entities ex_world 3))) = Some 42 /\
  exists w',
    (patch 3 ;;; fire ("add:" +:+ "C1") ex_loaded) ex_world = Done w' /\
    entity_meshes w' 3 = Some 42 /\
    count_events is_load (log w') = count_events is_load (log ex_world).
Proof.
  split; [reflexivity|]. split; [reflexivity|].
  apply (add_emission_loaded_binds ex_world 3 "C1" ex_loaded 42).
  - constructor.
  - reflexivity.
  - reflexivity.
  - simpl. eauto.
  - reflexivity.
  - reflexivity.
Defined.

(** ** The emission of [load:<id>] to several render assets, and again *)

Lemma listeners_load_safe w cid c :
  subs_wf w -> loaded c = true -> container_ok c = true ->
  Forall (safe c) (listeners ("load:" +:+ cid) w).
Proof.
  intros Hwf Hld Hok. eapply safe_Forall; [by apply listeners_load|].
  intros s [Hs _]. unfold safe. by rewrite Hs.
Qed.

(** X6. One emission of [load:<id>] with a loaded container binds every
    render asset that has its listener of the event and a resource, each to
    the entry at its own [renderIndex]: the listeners of the other render
    assets do not disturb it. *)
Theorem load_emission_binds_each (w : World) (cid : string) (c : ContainerAsset) :
  subs_wf w -> unshared w ->
  loaded c = true -> container_ok c = true ->
  exists w',
    fire ("load:" +:+ cid) c w = Done w' /\
    forall e l,
      is_Some (ra_resource (entities w e)) ->
      count_subs ("load:" +:+ cid) CbLoaded e (subs w) = 1 ->
      container_meshes c (renderIndex (data (entities w e))) = Some l ->
      entity_meshes w' e = Some l.
Proof.
  intros Hwf Hu Hld Hok.
  exists (after (fire ("load:" +:+ cid) c) w).
  assert (fire ("load:" +:+ cid) c w = Done (after (fire ("load:" +:+ cid) c) w)) as Hret.
  { unfold after at 1, fire. apply (fire_loop_done _ c w). by apply listeners_load_safe. }
  split; [done|]. intros e l [r Hr] Hone Hl.
  destruct (fire_load_one w e cid c r l) as (w' & Hf & _ & Hm & _); try done.
  rewrite Hret in Hf. by injection Hf as ->.
Qed.

Lemma ex_two_waiting_wf : subs_wf ex_two_waiting.
Proof. unfold ex_two_waiting. apply subs_wf_added, subs_wf_added. constructor. Qed.

Lemma ex_two_waiting_entities : entities ex_two_waiting = entities ex_world_indexed.
Proof.
  unfold ex_two_waiting.
  rewrite (entities_added 1 ex_unloaded). apply (entities_added 0 ex_unloaded).
Qed.

Lemma ex_two_waiting_unshared : unshared ex_two_waiting.
Proof.
  apply (unshared_entities ex_world_indexed); [apply ex_two_waiting_entities|].
  intros e1 e2 r H1 H2. cbn [ex_world_indexed entities ra_resource] in *. congruence.
Qed.

Lemma load_emission_binds_each_witness :
  count_subs ("load:" +:+ "C1") CbLoaded 0 (subs ex_two_waiting) = 1 /\
  count_subs ("load:" +:+ "C1") CbLoaded 1 (subs ex_two_waiting) = 1 /\
  container_meshes ex_pair (renderIndex (data (entities ex_two_waiting 0))) = Some 42 /\
  container_meshes ex_pair (renderIndex (data (entities ex_two_waiting 1))) = Some 43 /\
  exists w',
    fire ("load:" +:+ "C1") ex_pair ex_two_waiting = Done w' /\
    forall e l,
      is_Some (ra_resource (entities ex_two_waiting e)) ->
      count_subs ("load:" +:+ "C1") CbLoaded e (subs ex_two_waiting) = 1 ->
      container_meshes ex_pair (renderIndex (data (entities ex_two_waiting e))) = Some l ->
      entity_meshes w' e = Some l.
Proof.
  split; [vm_compute; reflexivity|]. split; [vm_compute; reflexivity|].
  split; [vm_compute; reflexivity|]. split; [vm_compute; reflexivity|].
  apply (load_emission_binds_each ex_two_waiting "C1" ex_pair).
  - apply ex_two_waiting_wf.
  - apply ex_two_waiting_unshared.
  - reflexivity.
  - reflexivity.
Defined.

(** X7. The listener of [load:<id>] is persistent: an emission of
    [load:<id>] leaves the subscriptions as they were, so a second emission
    (the container loaded again) binds the render asset again, to the entry
    of the container emitted last.  Every present entry of the containers
    emitted has a resource. *)
Theorem reload_updates_meshes (w : World) (e : nat) (cid : string)
    (c1 c2 : ContainerAsset) (l1 l2 : loc) :
  subs_wf w -> unshared w ->
  is_Some (ra_resource (entities w e)) ->
  count_subs ("load:" +:+ cid) CbLoaded e (subs w) = 1 ->
  container_ok c1 = true -> container_ok c2 = true ->
  container_meshes c1 (renderIndex (data (entities w e))) = Some l1 ->
  container_meshes c2 (renderIndex (data (entities w e))) = Some l2 ->
  exists w1 w2,
    fire ("load:" +:+ cid) c1 w = Done w1 /\
    entity_meshes w1 e = Some l1 /\
    subs w1 = subs w /\
    fire ("load:" +:+ cid) c2 w1 = Done w2 /\
    entity_meshes w2 e = Some l2 /\
    subs w2 = subs w.
Proof.
  intros Hwf Hu [r Hr] Hone Hok1 Hok2 Hl1 Hl2.
  destruct (fire_load_one w e cid c1 r l1) as (w1 & Hf1 & He1 & Hm1 & _); try done.
  assert (subs w1 = subs w) as Hs1.
  { pose proof (loaded_loop_subs c1 _ w (listeners_load w cid Hwf)) as H.
    unfold after in H. unfold fire in Hf1. by rewrite Hf1 in H. }
  assert (subs_wf w1) as Hwf1 by (unfold subs_wf; by rewrite Hs1).
  assert (unshared w1) as Hu1 by (eapply unshared_entities; [exact He1|done]).
  destruct (fire_load_one w1 e cid c2 r l2) as (w2 & Hf2 & He2 & Hm2 & _);
    try done; rewrite ?He1, ?Hs1; try done.
  assert (subs w2 = subs w1) as Hs2.
  { pose proof (loaded_loop_subs c2 _ w1 (listeners_load w1 cid Hwf1)) as H.
    unfold after in H. unfold fire in Hf2. by rewrite Hf2 in H. }
  exists w1, w2. repeat split; try done. congruence.
Qed.

Lemma reload_updates_meshes_witness :
  count_subs ("load:" +:+ "C1") CbLoaded 0 (subs ex_two_waiting) = 1 /\
  exists w1 w2,
    fire ("load:" +:+ "C1") ex_pair ex_two_waiting = Done w1 /\
    entity_meshes w1 0 = Some 42 /\
    subs w1 = subs ex_two_waiting /\
    fire ("load:" +:+ "C1") ex_reloaded w1 = Done w2 /\
    entity_meshes w2 0 = Some 43 /\
    subs w2 = subs ex_two_waiting.
Proof.
  split; [vm_compute; reflexivity|].
  apply (reload_updates_meshes ex_two_waiting 0 "C1" ex_pair ex_reloaded 42 43).
  - apply ex_two_waiting_wf.
  - apply ex_two_waiting_unshared.
  - exists 0. vm_compute. reflexivity.
  - vm_compute. reflexivity.
  - reflexivity.
  - reflexivity.
  - vm_compute. reflexivity.
  - vm_compute. reflexivity.
Defined.

(** ** Removal, before and after a bind *)

Lemma assets_fire_loop l c w : assets (after (fire_loop l c) w) = assets w.
Proof.
  apply (fire_loop_preserves (fun w' => assets w' = assets w) (fun _ => True));
    try done.
  by apply Forall_forall.
Qed.

Lemma patch_waiting e w cid c :
  truthy_id (containerAsset (data (entities w e))) = Some cid ->
  assets w !! cid = Some c ->
  ca_resource c = None ->
  patch e w = Done (add_log (EvLoad (ca_id c)) (with_resubscribed e (ca_id c) w)).
Proof.
  intros Hid Hc Hun. by rewrite (patch_found _ _ _ _ Hid Hc), onContainerAssetAdded_eq, Hun.
Qed.

(** X8. Removal cancels a pending bind: [patch] with the container in the
    registry but not loaded asks for the load and subscribes; when
    [remove:<id>] is emitted before the load completes, [destroy] is called
    on the (still empty) resource, and a later emission of [load:<id>]
    no longer reaches the render asset, whose [meshes] stays unset. *)
Theorem removal_cancels_pending_bind (w : World) (e : nat) (cid : string)
    (c0 : ContainerAsset) :
  subs_wf w -> unshared w ->
  truthy_id (containerAsset (data (entities w e))) = Some cid ->
  assets w !! cid = Some c0 ->
  ca_id c0 = cid ->
  ca_resource c0 = None ->
  is_Some (ra_resource (entities w e)) ->
  exists w1 w2,
    patch e w = Done w1 /\
    log w1 = log w ++ [EvLoad cid] /\
    fire ("remove:" +:+ cid) c0 w1 = Done w2 /\
    count_events (is_destroy_of e) (log w2) =
      count_events (is_destroy_of e) (log w) + 1 /\
    entity_meshes w2 e = None /\
    forall c1,
      entity_meshes (after (fire ("load:" +:+ cid) c1) w2) e = None /\
      count_events (is_assign_of e) (log (after (fire ("load:" +:+ cid) c1) w2)) =
        count_events (is_assign_of e) (log w).
Proof.
  intros Hwf Hu Hid Hc Hcid Hun [r Hr].
  pose proof (patch_waiting e w cid c0 Hid Hc Hun) as Hp. rewrite Hcid in Hp.
  set (w1 := add_log (EvLoad cid) (with_resubscribed e cid w)) in *.
  assert (subs_wf w1) as Hwf1.
  { pose proof (subs_wf_perform (ABind e) w Hwf) as H. cbn [perform] in H.
    unfold after in H. by rewrite Hp in H. }
  assert (unshared w1) as Hu1 by (by apply (unshared_entities w)).
  destruct (fire_remove_bound w1 e cid c0 r) as (w2 & Hf & He2 & Hr2 & Hl2 & Hlk & _);
    try done.
  { subst w1. cbn [subs add_log with_resubscribed]. apply count_remove_resubscribed. }
  assert (events_of e (log w1) = events_of e (log w)) as Hev1.
  { subst w1. cbn [log add_log with_resubscribed]. by rewrite events_of_snoc, app_nil_r. }
  assert (entity_meshes w2 e = None) as Hm2.
  { unfold entity_meshes. rewrite He2. cbn [entities w1 add_log with_resubscribed].
    by rewrite Hr, Hr2. }
  exists w1, w2. split; [done|]. split; [done|]. split; [done|]. split.
  { rewrite (count_events_of _ e (log w2)), (count_events_of _ e (log w))
      by apply is_destroy_of_event.
    rewrite Hl2, Hev1, count_events_app. f_equal.
    unfold count_events. rewrite !filter_cons, filter_nil. simpl.
    rewrite Nat.eqb_refl. by repeat case_decide. }
  split; [done|]. intros c1.
  assert (subs_wf w2) as Hwf2.
  { pose proof (subs_wf_perform (AEmit ("remove:" +:+ cid) c0) w1 Hwf1) as H.
    cbn [perform] in H. unfold after in H. by rewrite Hf in H. }
  assert (unshared w2) as Hu2 by (eapply unshared_entities; [exact He2|done]).
  destruct (fire_load_unsubscribed e cid c1 w2 Hwf2 Hu2 Hlk) as (He3 & Hr3 & Hl3 & _).
  split.
  - unfold entity_meshes in *. rewrite He3.
    destruct (ra_resource (entities w2 e)) as [r'|] eqn:Hr'; [|done].
    by rewrite (Hr3 r').
  - rewrite (count_events_of _ e (log (after _ w2))), (count_events_of _ e (log w))
      by apply is_assign_of_event.
    rewrite Hl3, Hl2, Hev1, count_events_app.
    unfold count_events at 2. rewrite !filter_cons, filter_nil. simpl.
    repeat case_decide; try done; simpl; lia.
Qed.

Lemma removal_cancels_pending_bind_witness :
  assets ex_world_unloaded !! "C1" = Some ex_unloaded /\
  exists w1 w2,
    patch 3 ex_world_unloaded = Done w1 /\
    log w1 = log ex_world_unloaded ++ [EvLoad "C1"] /\
    fire ("remove:" +:+ "C1") ex_unloaded w1 = Done w2 /\
    count_events (is_destroy_of 3) (log w2) =
      count_events (is_destroy_of 3) (log ex_world_unloaded) + 1 /\
    entity_meshes w2 3 = None /\
    forall c1,
      entity_meshes (after (fire ("load:" +:+ "C1") c1) w2) 3 = None /\
      count_events (is_assign_of 3) (log (after (fire ("load:" +:+ "C1") c1) w2)) =
        count_events (is_assign_of 3) (log ex_world_unloaded).
Proof.
  split; [reflexivity|].
  apply (removal_cancels_pending_bind ex_world_unloaded 3 "C1" ex_unloaded).
  - constructor.
  - intros e1 e2 r H1 H2. simpl in *. congruence.
  - reflexivity.
  - reflexivity.
  - reflexivity.
  - reflexivity.
  - simpl. eauto.
Defined.

(** X9. Removal is not final: after a bind and the emission of
    [remove:<id>], another call of [patch] with the container still in the
    registry subscribes both listeners again and assigns [meshes] on the
    destroyed Render object, so that the render asset is bound again. *)
Theorem rebind_after_removal (w : World) (e : nat) (cid : string)
    (c : ContainerAsset) (l : loc) :
  subs_wf w -> unshared w ->
  truthy_id (containerAsset (data (entities w e))) = Some cid ->
  assets w !! cid = Some c ->
  ca_id c = cid ->
  is_Some (ra_resource (entities w e)) ->
  container_meshes c (renderIndex (data (entities w e))) = Some l ->
  exists w1 w2 w3,
    patch e w = Done w1 /\ entity_meshes w1 e = Some l /\
    fire ("remove:" +:+ cid) c w1 = Done w2 /\ entity_meshes w2 e = None /\
    patch e w2 = Done w3 /\ entity_meshes w3 e = Some l /\
    ra_resource (entities w3 e) = ra_resource (entities w e) /\
    count_subs ("load:" +:+ cid) CbLoaded e (subs w3) = 1 /\
    count_subs ("remove:" +:+ cid) CbRemoved e (subs w3) = 1 /\
    bound (log w3) e = true.
Proof.
  intros Hwf Hu Hid Hc Hcid [r Hr] Hl.
  pose proof (patch_found _ _ _ _ Hid Hc) as Hp.
  rewrite (onContainerAssetAdded_assigns _ _ _ _ _ Hr Hl), Hcid in Hp.
  set (w1 := add_log _ _) in *.
  assert (subs_wf w1) as Hwf1.
  { pose proof (subs_wf_perform (ABind e) w Hwf) as H. cbn [perform] in H.
    unfold after in H. by rewrite Hp in H. }
  assert (unshared w1) as Hu1 by (by apply (unshared_entities w)).
  destruct (fire_remove_bound w1 e cid c r) as (w2 & Hf & He2 & Hr2 & _); try done.
  { subst w1. cbn [subs add_log set_render with_resubscribed].
    apply count_remove_resubscribed. }
  assert (entities w2 = entities w) as He2' by (by rewrite He2).
  assert (assets w2 = assets w) as Ha2.
  { pose proof (assets_fire_loop (listeners ("remove:" +:+ cid) w1) c w1) as H.
    unfold after, listeners in H. unfold fire in Hf. by rewrite Hf in H. }
  assert (patch e w2 =
          Done (add_log (EvAssign e r (Some l))
                  (set_render r (mkRender (Some l)) (with_resubscribed e cid w2)))) as Hp2.
  { rewrite (patch_found e w2 cid c) by (by rewrite ?He2', ?Ha2).
    rewrite (onContainerAssetAdded_assigns _ _ _ r l) by (by rewrite He2').
    by rewrite Hcid. }
  exists w1, w2. eexists. split; [done|]. split; [by apply entity_meshes_assigned|].
  split; [done|]. split.
  { unfold entity_meshes. by rewrite He2', Hr, Hr2. }
  split; [exact Hp2|]. split.
  { apply entity_meshes_assigned. cbn [entities with_resubscribed]. by rewrite He2'. }
  cbn [entities subs log add_log set_render with_resubscribed].
  split; [by rewrite He2'|]. split; [apply count_load_resubscribed|].
  split; [apply count_remove_resubscribed|].
  rewrite bound_snoc. simpl. by rewrite Nat.eqb_refl.
Qed.

Lemma rebind_after_removal_witness :
  assets ex_world_loaded !! "C1" = Some ex_loaded /\
  exists w1 w2 w3,
    patch 3 ex_world_loaded = Done w1 /\ entity_meshes w1 3 = Some 42 /\
    fire ("remove:" +:+ "C1") ex_loaded w1 = Done w2 /\ entity_meshes w2 3 = None /\
    patch 3 w2 = Done w3 /\ entity_meshes w3 3 = Some 42 /\
    ra_resource (entities w3 3) = ra_resource (entities ex_world_loaded 3) /\
    count_subs ("load:" +:+ "C1") CbLoaded 3 (subs w3) = 1 /\
    count_subs ("remove:" +:+ "C1") CbRemoved 3 (subs w3) = 1 /\
    bound (log w3) 3 = true.
Proof.
  split; [reflexivity|].
  apply (rebind_after_removal ex_world_loaded 3 "C1" ex_loaded 42).
  - constructor.
  - intros e1 e2 r H1 H2. simpl in *. congruence.
  - reflexivity.
  - reflexivity.
  - reflexivity.
  - simpl. eauto.
  - reflexivity.
Defined.

Lemma binder_frame_witness :
  (forall e, ra_resource (entities ex_world_cleared e) <> Some 5) /\
  (forall e,
     assets (after (patch e) ex_world_cleared) = assets ex_world_cleared /\
     entities (after (patch e) ex_world_cleared) = entities ex_world_cleared /\
     renders (after (patch e) ex_world_cleared) 5 = renders ex_world_cleared 5) /\
  (forall name c,
     assets (after (fire name c) ex_world_cleared) = assets ex_world_cleared /\
     entities (after (fire name c) ex_world_cleared) = entities ex_world_cleared /\
     renders (after (fire name c) ex_world_cleared) 5 = renders ex_world_cleared 5).
Proof.
  split; [intros e; simpl; discriminate|].
  apply (binder_frame ex_world_cleared 5). intros e. simpl. discriminate.
Defined.

(** ** Listeners of a container the render asset was bound to before *)

Lemma count_other_resubscribed name cb e' e cid n l :
  name <> "load:" +:+ cid -> name <> "remove:" +:+ cid ->
  count_subs name cb e' (resubscribed e cid n l) = count_subs name cb e' l.
Proof.
  intros Hl Hr. unfold resubscribed.
  assert (forall cb0 s, sub_is name cb e' s = true ->
            sub_is ("load:" +:+ cid) cb0 e s = false) as H1.
  { intros cb0 s Hs. apply not_true_iff_false. intros Hs'.
    apply sub_is_true in Hs as (Hs & _). apply sub_is_true in Hs' as (Hs' & _). congruence. }
  assert (forall cb0 s, sub_is name cb e' s = true ->
            sub_is ("remove:" +:+ cid) cb0 e s = false) as H2.
  { intros cb0 s Hs. apply not_true_iff_false. intros Hs'.
    apply sub_is_true in Hs as (Hs & _). apply sub_is_true in Hs' as (Hs' & _). congruence. }
  rewrite count_subs_app, count_subs_filter_other by apply H2.
  rewrite count_subs_app, count_subs_filter_other by apply H1.
  rewrite !count_subs_single, !sub_is_other_name by done. lia.
Qed.

(** X10. [onContainerAssetAdded] unsubscribes only the listeners of the
    container it is called with.  When a render asset bound to container A
    is bound to a container B of another id, the listeners for A stay
    subscribed beside those for B, and a later emission of [load:<A>]
    rebinds the render asset to the entry of A.  Every present entry of A
    has a resource. *)
Theorem stale_listeners_of_previous_container (w : World) (e : nat)
    (cA cB : ContainerAsset) (lA lB : loc) :
  ca_id cA <> ca_id cB ->
  subs_wf w -> unshared w ->
  is_Some (ra_resource (entities w e)) ->
  container_ok cA = true ->
  container_meshes cA (renderIndex (data (entities w e))) = Some lA ->
  container_meshes cB (renderIndex (data (entities w e))) = Some lB ->
  exists w1 w2 w3,
    onContainerAssetAdded e cA w = Done w1 /\ entity_meshes w1 e = Some lA /\
    onContainerAssetAdded e cB w1 = Done w2 /\ entity_meshes w2 e = Some lB /\
    count_subs ("load:" +:+ ca_id cA) CbLoaded e (subs w2) = 1 /\
    count_subs ("remove:" +:+ ca_id cA) CbRemoved e (subs w2) = 1 /\
    count_subs ("load:" +:+ ca_id cB) CbLoaded e (subs w2) = 1 /\
    count_subs ("remove:" +:+ ca_id cB) CbRemoved e (subs w2) = 1 /\
    fire ("load:" +:+ ca_id cA) cA w2 = Done w3 /\ entity_meshes w3 e = Some lA.
Proof.
  intros Hne Hwf Hu [r Hr] Hok HlA HlB.
  pose proof (onContainerAssetAdded_assigns e cA w r lA Hr HlA) as H1.
  set (w1 := add_log _ _) in H1.
  assert (entities w1 = entities w) as He1 by done.
  pose proof (onContainerAssetAdded_assigns e cB w1 r lB) as H2.
  rewrite He1 in H2. specialize (H2 Hr HlB).
  set (w2 := add_log _ _) in H2.
  assert (entities w2 = entities w) as He2 by done.
  assert (subs w1 = resubscribed e (ca_id cA) (next_sid w) (subs w)) as Hs1 by done.
  assert (subs w2 = resubscribed e (ca_id cB) (next_sid w1) (subs w1)) as Hs2 by done.
  assert (count_subs ("load:" +:+ ca_id cA) CbLoaded e (subs w2) = 1) as HcA.
  { rewrite Hs2, count_other_resubscribed, Hs1.
    - apply count_load_resubscribed.
    - intros H. by apply load_name_inj in H.
    - apply load_remove_names. }
  assert (subs_wf w2) as Hwf2.
  { pose proof (subs_wf_added e cB _ (subs_wf_added e cA w Hwf)) as H.
    unfold after in H. rewrite H1 in H. cbn [final] in H. by rewrite H2 in H. }
  assert (unshared w2) as Hu2 by (by apply (unshared_entities w)).
  destruct (fire_load_one w2 e (ca_id cA) cA r lA) as (w3 & Hf & _ & Hm & _);
    try done; rewrite ?He2; try done.
  exists w1, w2, w3. split; [done|]. split; [by apply entity_meshes_assigned|].
  split; [done|]. split; [apply entity_meshes_assigned; exact Hr|].
  split; [done|]. split.
  { rewrite Hs2, count_other_resubscribed, Hs1.
    - apply count_remove_resubscribed.
    - intros H. symmetry in H. by apply load_remove_names in H.
    - intros H. by apply remove_name_inj in H. }
  split; [rewrite Hs2; apply count_load_resubscribed|].
  split; [rewrite Hs2; apply count_remove_resubscribed|]. done.
Qed.

Lemma stale_listeners_of_previous_container_witness :
  ca_id ex_loaded <> ca_id ex_loaded2 /\
  exists w1 w2 w3,
    onContainerAssetAdded 3 ex_loaded ex_world = Done w1 /\
    entity_meshes w1 3 = Some 42 /\
    onContainerAssetAdded 3 ex_loaded2 w1 = Done w2 /\
    entity_meshes w2 3 = Some 43 /\
    count_subs ("load:" +:+ ca_id ex_loaded) CbLoaded 3 (subs w2) = 1 /\
    count_subs ("remove:" +:+ ca_id ex_loaded) CbRemoved 3 (subs w2) = 1 /\
    count_subs ("load:" +:+ ca_id ex_loaded2) CbLoaded 3 (subs w2) = 1 /\
    count_subs ("remove:" +:+ ca_id ex_loaded2) CbRemoved 3 (subs w2) = 1 /\
    fire ("load:" +:+ ca_id ex_loaded) ex_loaded w2 = Done w3 /\
    entity_meshes w3 3 = Some 42.
Proof.
  split; [simpl; discriminate|].
  apply (stale_listeners_of_previous_container ex_world 3 ex_loaded ex_loaded2 42 43).
  - simpl. discriminate.
  - constructor.
  - intros e1 e2 r H1 H2. simpl in *. congruence.
  - simpl. eauto.
  - reflexivity.
  - reflexivity.
  - reflexivity.
Defined.

(** ** Emissions that come before [add:<id>] *)

Lemma fire_without_listener name cb e c w :
  Forall (fun s => s_name s = name -> s_cb s = cb) (subs w) ->
  unshared w ->
  count_subs name cb e (subs w) = 0 ->
  untouched e w (after (fire name c) w).
Proof.
  intros Hcb Hu Hz. unfold after, fire.
  apply (untouched_fire_loop e w Hu); [|apply untouched_refl].
  by eapply listeners_others.
Qed.

(** X11. While a render asset only waits for its container to be added
    ([patch] has found it missing and subscribed to [add:<id>]), the
    emissions of [load:<id>] and of [remove:<id>] pass it by: no callback
    is called for it, its Render object is not written and nothing is
    subscribed on its behalf. *)
Theorem emissions_before_add_ignored (w : World) (e : nat) (cid : string) :
  subs_wf w -> unshared w ->
  truthy_id (containerAsset (data (entities w e))) = Some cid ->
  assets w !! cid = None ->
  count_subs ("load:" +:+ cid) CbLoaded e (subs w) = 0 ->
  count_subs ("remove:" +:+ cid) CbRemoved e (subs w) = 0 ->
  exists w1,
    patch e w = Done w1 /\
    count_subs ("add:" +:+ cid) CbAdded e (subs w1) =
      count_subs ("add:" +:+ cid) CbAdded e (subs w) + 1 /\
    forall c,
      untouched e w1 (after (fire ("load:" +:+ cid) c) w1) /\
      untouched e w1 (after (fire ("remove:" +:+ cid) c) w1).
Proof.
  intros Hwf Hu Hid Hnone Hl Hr.
  pose proof (patch_not_found _ _ _ Hid Hnone) as Hp.
  unfold registry_once, subscribe in Hp. set (w1 := mkWorld _ _ _ _ _ _) in Hp.
  assert (subs_wf w1) as Hwf1.
  { pose proof (subs_wf_perform (ABind e) w Hwf) as H. cbn [perform] in H.
    unfold after in H. by rewrite Hp in H. }
  assert (unshared w1) as Hu1 by (by apply (unshared_entities w)).
  exists w1. split; [done|]. split.
  { subst w1. cbn [subs]. by rewrite count_subs_app, count_subs_single, sub_is_mkSub. }
  intros c. split.
  - apply (fire_without_listener _ CbLoaded); [by apply subs_wf_load_cb|done|].
    subst w1. cbn [subs]. rewrite count_subs_app, count_subs_single, Hl.
    rewrite sub_is_other_name; [done|].
    intros H. symmetry in H. by apply load_add_names in H.
  - apply (fire_without_listener _ CbRemoved); [by apply subs_wf_remove_cb|done|].
    subst w1. cbn [subs]. rewrite count_subs_app, count_subs_single, Hr.
    rewrite sub_is_other_name; [done|].
    intros H. symmetry in H. by apply remove_add_names in H.
Qed.

Lemma emissions_before_add_ignored_witness :
  assets ex_world !! "C1" = None /\
  exists w1,
    patch 3 ex_world = Done w1 /\
    count_subs ("add:" +:+ "C1") CbAdded 3 (subs w1) =
      count_subs ("add:" +:+ "C1") CbAdded 3 (subs ex_world) + 1 /\
    forall c,
      untouched 3 w1 (after (fire ("load:" +:+ "C1") c) w1) /\
      untouched 3 w1 (after (fire ("remove:" +:+ "C1") c) w1).
Proof.
  split; [reflexivity|].
  apply (emissions_before_add_ignored ex_world 3 "C1").
  - constructor.
  - intros e1 e2 r H1 H2. simpl in *. congruence.
  - reflexivity.
  - reflexivity.
  - reflexivity.
  - reflexivity.
Defined.

(** X12. The listener of [remove:<id>] is subscribed with [once]: after the
    emission that tears the resource down, a second emission of
    [remove:<id>] passes the render asset by, and [destroy] has been called
    once in all. *)
Theorem second_removal_ignored (w : World) (e : nat) (cid : string)
    (c : ContainerAsset) :
  subs_wf w -> unshared w ->
  is_Some (ra_resource (entities w e)) ->
  count_subs ("remove:" +:+ cid) CbRemoved e (subs w) = 1 ->
  ca_id c = cid ->
  exists w1,
    fire ("remove:" +:+ cid) c w = Done w1 /\
    forall c',
      untouched e w1 (after (fire ("remove:" +:+ cid) c') w1) /\
      count_events (is_destroy_of e) (log (after (fire ("remove:" +:+ cid) c') w1)) =
        count_events (is_destroy_of e) (log w) + 1.
Proof.
  intros Hwf Hu [r Hr] Hone Hc.
  destruct (fire_remove_bound w e cid c r) as (w1 & Hf & He & _ & Hl & _ & Hrk);
    try done.
  exists w1. split; [done|]. intros c'.
  assert (subs_wf w1) as Hwf1.
  { pose proof (subs_wf_perform (AEmit ("remove:" +:+ cid) c) w Hwf) as H.
    cbn [perform] in H. unfold after in H. by rewrite Hf in H. }
  assert (unshared w1) as Hu1 by (eapply unshared_entities; [exact He|done]).
  pose proof (fire_without_listener ("remove:" +:+ cid) CbRemoved e c' w1
                (subs_wf_remove_cb w1 cid Hwf1) Hu1 Hrk) as Hun.
  split; [done|]. destruct Hun as (_ & _ & Hl2 & _).
  rewrite (count_events_of _ e (log (after _ w1))), (count_events_of _ e (log w))
    by apply is_destroy_of_event.
  rewrite Hl2, Hl, count_events_app. f_equal.
  unfold count_events. rewrite !filter_cons, filter_nil. simpl.
  rewrite Nat.eqb_refl. by repeat case_decide.
Qed.

Lemma second_removal_ignored_witness :
  count_subs ("remove:" +:+ "C1") CbRemoved 3 (subs ex_bound) = 1 /\
  exists w1,
    fire ("remove:" +:+ "C1") ex_loaded ex_bound = Done w1 /\
    forall c',
      untouched 3 w1 (after (fire ("remove:" +:+ "C1") c') w1) /\
      count_events (is_destroy_of 3) (log (after (fire ("remove:" +:+ "C1") c') w1)) =
        count_events (is_destroy_of 3) (log ex_bound) + 1.
Proof.
  split; [reflexivity|].
  apply (second_removal_ignored ex_bound 3 "C1" ex_loaded).
  - apply subs_wf_reachable, ex_bound_reachable.
  - apply unshared_reachable, ex_bound_reachable.
  - simpl. eauto.
  - reflexivity.
  - reflexivity.
Defined.
